(** * speedown: the aria2 supervisor and its front-end, embedded in Rocq

    A shallow embedding of [new.py]: the class [Aria2Controller]
    ([_find_aria2_executable], [start_aria2], [stop_aria2],
    [is_aria2_running]) and the command handlers of [Aria2DownloaderApp]
    ([start_aria2_service], [start_download], [update_status], ...).

    Python objects become records, attribute assignment becomes record
    update, and every method is a computation in a small state-and-exception
    monad: the state survives a raised exception, as it does in Python.

    The operating system, psutil, subprocess and the aria2p client are not
    part of the program.  They are an interface ([OS]) over an abstract world
    [W]: observations read the world, actions transform it and may raise.
    Every request the program makes to the outside is also appended to a
    chronological event log, so that "spawns no process" or "terminates
    nothing" can be stated. *)

From Stdlib Require Import String Ascii List ZArith Bool Lia QArith DecimalString.
Import ListNotations.

Local Open Scope string_scope.
Local Open Scope Z_scope.
Local Open Scope list_scope.

Set Implicit Arguments.

(** ** Python strings

    A [str] is modelled by the UTF-8 bytes of its code points.  Prefix and
    suffix tests, concatenation and splitting at an ASCII character are the
    same on the bytes as on the code points; the white space and line-break
    classes of [str.strip] and [str.splitlines] and the literals of [int()]
    are read code point by code point.

    Two things are the interpreter's and not the program's: the decimal
    value the Unicode database gives a code point beyond ASCII (the digits
    of other scripts, which [int()] accepts), and the limit on the number of
    digits [int()] converts ([sys.get_int_max_str_digits()], 0 for none). *)

Class Interpreter : Type := {
  unicode_decimal : N -> option Z;
  int_max_str_digits : N
}.

Module PyStr.

Definition byte (c : ascii) : N := N_of_ascii c.

Definition continuation (c : ascii) : bool :=
  ((128 <=? byte c) && (byte c <? 192))%N.

Definition low (c : ascii) : N := (byte c - 128)%N.

(** A byte that starts no well-formed sequence stands for the code point
    [surrogateescape] gives it. *)
Definition stray (c : ascii) : N * string :=
  ((56320 + byte c)%N, String c EmptyString).

(** The code points of a string, each with its bytes. *)
Fixpoint chars (s : string) : list (N * string) :=
  match s with
  | EmptyString => []
  | String c r =>
      let n := byte c in
      if (n <? 128)%N then (n, String c EmptyString) :: chars r
      else if (n <? 224)%N then
        match r with
        | String c1 r1 =>
            let cp := ((n - 192) * 64 + low c1)%N in
            if (continuation c1 && (192 <=? n) && (128 <=? cp))%N%bool
            then (cp, String c (String c1 EmptyString)) :: chars r1
            else stray c :: chars r
        | EmptyString => stray c :: chars r
        end
      else if (n <? 240)%N then
        match r with
        | String c1 (String c2 r2) =>
            let cp := ((n - 224) * 4096 + low c1 * 64 + low c2)%N in
            if (continuation c1 && continuation c2 && (2048 <=? cp))%N%bool
            then (cp, String c (String c1 (String c2 EmptyString))) :: chars r2
            else stray c :: chars r
        | _ => stray c :: chars r
        end
      else
        match r with
        | String c1 (String c2 (String c3 r3)) =>
            let cp :=
              ((n - 240) * 262144 + low c1 * 4096 + low c2 * 64 + low c3)%N in
            if (continuation c1 && continuation c2 && continuation c3
                && (n <? 248) && (65536 <=? cp) && (cp <? 1114112))%N%bool
            then (cp, String c (String c1 (String c2 (String c3 EmptyString))))
                   :: chars r3
            else stray c :: chars r
        | _ => stray c :: chars r
        end
  end.

(** The bytes of a list of code points. *)
Fixpoint join (l : list (N * string)) : string :=
  match l with
  | [] => EmptyString
  | (_, bytes) :: rest => String.append bytes (join rest)
  end.

Definition among (cp : N) (l : list N) : bool := existsb (N.eqb cp) l.

(** [ch.isspace()], the class [str.strip] removes. *)
Definition is_space (cp : N) : bool :=
  (((9 <=? cp) && (cp <=? 13)) || ((28 <=? cp) && (cp <=? 32))
   || ((8192 <=? cp) && (cp <=? 8202))
   || among cp [133; 160; 5760; 8232; 8233; 8239; 8287; 12288])%N%bool.

(** The line boundaries of [str.splitlines]. *)
Definition is_linebreak (cp : N) : bool :=
  (((10 <=? cp) && (cp <=? 13)) || ((28 <=? cp) && (cp <=? 30))
   || among cp [133; 8232; 8233])%N%bool.

(** [s.startswith(p)] *)
Definition startswith (s p : string) : bool := String.prefix p s.

(** [s.endswith(p)] *)
Definition endswith (s p : string) : bool :=
  let n := String.length s in
  let m := String.length p in
  if (m <=? n)%nat then String.eqb (String.substring (n - m) m s) p else false.

Fixpoint lstrip (l : list (N * string)) : list (N * string) :=
  match l with
  | (cp, bytes) :: rest => if is_space cp then lstrip rest else l
  | [] => []
  end.

(** Drops the trailing white space: a code point is kept when it is no
    space or when something is kept after it. *)
Fixpoint rstrip (l : list (N * string)) : list (N * string) :=
  match l with
  | [] => []
  | (cp, bytes) :: rest =>
      match rstrip rest with
      | [] => if is_space cp then [] else [(cp, bytes)]
      | kept => (cp, bytes) :: kept
      end
  end.

(** [s.strip()] *)
Definition strip (s : string) : string := join (rstrip (lstrip (chars s))).

(** [s.split(sep)] for a one-character ASCII separator: never returns the
    empty list, [''.split(':') == ['']]. *)
Fixpoint split (sep : ascii) (s : string) : list string :=
  match s with
  | EmptyString => [EmptyString]
  | String c r =>
      if Ascii.eqb c sep then EmptyString :: split sep r
      else match split sep r with
           | h :: t => String c h :: t
           | [] => [String c EmptyString]
           end
  end.

(** The lines of a list of code points: a carriage return followed by a
    line feed is one break, and a final break opens no empty last line. *)
Fixpoint lines (l : list (N * string)) : list string :=
  match l with
  | [] => []
  | (cp, bytes) :: r =>
      if is_linebreak cp then
        EmptyString ::
          match r with
          | (cp', _) :: r' =>
              if ((cp =? 13) && (cp' =? 10))%N%bool then lines r' else lines r
          | [] => []
          end
      else match lines r with
           | h :: t => String.append bytes h :: t
           | [] => [bytes]
           end
  end.

(** [s.splitlines()] *)
Definition splitlines (s : string) : list string := lines (chars s).

(** [str(n)] for an [int]. *)
Definition of_int (n : Z) : string := NilZero.string_of_int (Z.to_int n).

(** What a code point is to [int()]. *)
Inductive token : Type :=
| Blank
| Plus
| Minus
| Underscore
| Digit (d : Z)
| Other.

Section Int.

Context `{Interpreter}.

(** Below 127 the character stands for itself, and the blanks are the
    six of C; from 127 on the Unicode database decides: a white space
    counts as a blank, a decimal digit as its value. *)
Definition token_of (cp : N) : token :=
  if (cp <? 127)%N then
    if (((9 <=? cp) && (cp <=? 13)) || (cp =? 32))%N%bool then Blank
    else if (cp =? 43)%N then Plus
    else if (cp =? 45)%N then Minus
    else if (cp =? 95)%N then Underscore
    else if ((48 <=? cp) && (cp <=? 57))%N%bool then Digit (Z.of_N cp - 48)
    else Other
  else if is_space cp then Blank
  else match unicode_decimal cp with
       | Some d => Digit d
       | None => Other
       end.

Fixpoint leading_blanks (l : list token) : list token :=
  match l with
  | Blank :: rest => leading_blanks rest
  | _ => l
  end.

Fixpoint all_blank (l : list token) : bool :=
  match l with
  | [] => true
  | Blank :: rest => all_blank rest
  | _ => false
  end.

(** The digits of the literal, single underscores allowed between two
    digits only, then nothing but blanks: the value and the number of
    digits. *)
Fixpoint digits (l : list token) (acc : Z) (count : N) (after_digit : bool)
  : option (Z * N) :=
  match l with
  | Digit d :: rest => digits rest (10 * acc + d) (count + 1) true
  | Underscore :: rest =>
      if after_digit then digits rest acc count false else None
  | _ => if (after_digit && all_blank l)%bool then Some (acc, count) else None
  end.

(** The limit is looked at only beyond 640 digits, and 0 means none. *)
Definition within_limit (count : N) : bool :=
  if (640 <? count)%N
  then ((int_max_str_digits =? 0) || (count <=? int_max_str_digits))%N%bool
  else true.

Definition literal (l : list token) : option Z :=
  match digits l 0 0 false with
  | Some (v, count) => if within_limit count then Some v else None
  | None => None
  end.

(** [int(s)]: [None] stands for [ValueError]. *)
Definition to_int (s : string) : option Z :=
  match leading_blanks (map (fun ch => token_of (fst ch)) (chars s)) with
  | Minus :: rest => option_map Z.opp (literal rest)
  | Plus :: rest => literal rest
  | rest => literal rest
  end.

End Int.

(** Python truth value of a string. *)
Definition truthy (s : string) : bool :=
  match s with EmptyString => false | _ => true end.

End PyStr.

(** Truth value of an attribute that holds [None] or a string. *)
Definition truthy_opt (o : option string) : bool :=
  match o with
  | Some s => PyStr.truthy s
  | None => false
  end.

(** ** Exceptions and outcomes

    Only subclasses of [Exception] are modelled; [exn_msg] is [str(e)]. *)

Inductive exn_class : Type :=
| AccessDenied
| NoSuchProcess
| TimeoutExpired
| ValueError
| KeyError
| OSError
| ClientException.

Record exn : Type := Exn { exn_cls : exn_class; exn_msg : string }.

Definition exn_class_eqb (a b : exn_class) : bool :=
  match a, b with
  | AccessDenied, AccessDenied
  | NoSuchProcess, NoSuchProcess
  | TimeoutExpired, TimeoutExpired
  | ValueError, ValueError
  | KeyError, KeyError
  | OSError, OSError
  | ClientException, ClientException => true
  | _, _ => false
  end.

Inductive outcome (A : Type) : Type :=
| Ok (a : A)
| Raise (e : exn).

Arguments Ok {A} a.
Arguments Raise {A} e.

(** ** The state-and-exception monad *)

Definition M (S A : Type) : Type := S -> outcome A * S.

Definition ret {S A : Type} (a : A) : M S A := fun s => (Ok a, s).

Definition bind {S A B : Type} (c : M S A) (k : A -> M S B) : M S B :=
  fun s =>
    match c s with
    | (Ok a, s') => k a s'
    | (Raise e, s') => (Raise e, s')
    end.

Definition raise {S A : Type} (e : exn) : M S A := fun s => (Raise e, s).

Definition get {S : Type} : M S S := fun s => (Ok s, s).

Definition put {S : Type} (s : S) : M S unit := fun _ => (Ok tt, s).

Definition modify {S : Type} (f : S -> S) : M S unit := fun s => (Ok tt, f s).

(** [try: c  except <classes matching p> as e: h e] *)
Definition try_except {S A : Type} (c : M S A) (p : exn -> bool) (h : exn -> M S A)
  : M S A :=
  fun s =>
    match c s with
    | (Raise e, s') => if p e then h e s' else (Raise e, s')
    | r => r
    end.

(** Runs a computation on a component of the state. *)
Definition zoom {S T A : Type} (proj : S -> T) (upd : T -> S -> S) (c : M T A)
  : M S A :=
  fun s => let (r, t') := c (proj s) in (r, upd t' s).

Declare Scope py_scope.
Delimit Scope py_scope with py.
Notation "x <- c ;; k" := (bind c (fun x => k))
  (at level 61, c at next level, right associativity) : py_scope.
Notation "c ;; k" := (bind c (fun _ => k))
  (at level 61, right associativity) : py_scope.
Local Open Scope py_scope.

(** [except Exception] *)
Definition any_exception (_ : exn) : bool := true.

Definition is_class (c : exn_class) (e : exn) : bool := exn_class_eqb (exn_cls e) c.

(** ** Data of the outside world *)

(** One entry of [psutil.net_connections()]: [conn.laddr.port], [conn.status]. *)
Record sconn : Type := SConn { laddr_port : Z; conn_status : string }.

(** One entry of [psutil.process_iter([...])]: [proc.info['pid']] and
    [proc.info['name']], which psutil sets to [None] when the name of that
    process may not be read. *)
Record Process : Type := Proc { pid : Z; info_name : option string }.

(** A [subprocess.Popen] object. *)
Definition Handle : Type := Z.

(** An [aria2p.API] object. *)
Record Client : Type := MkClient { host : string; client_port : Z; secret : string }.

(** An [aria2p.Download]. *)
Record Download : Type := MkDownload {
  gid : string;
  name : string;
  status : string;
  progress : Q;
  download_speed : Z;
  total_length : Z
}.

(** The three enqueue operations of the client. *)
Inductive RpcAdd : Type := add_magnet | add_torrent | add_uris.

(** The [options] dictionary of an enqueue call, in insertion order. *)
Definition Options : Type := list (string * string).

(** What [subprocess.Popen] is asked for besides the command. *)
Inductive SpawnMode : Type :=
| DetachedNoWindow      (* startupinfo, DETACHED_PROCESS | CREATE_NO_WINDOW *)
| NewSessionDevNull.    (* stdout, stderr to DEVNULL, start_new_session *)

(** Requests the program makes to the outside, in the order it makes them. *)
Inductive Event : Type :=
| EvPopen (cmd : list string) (mode : SpawnMode)
| EvSleep (seconds : Z)
| EvTerminate (h : Handle)
| EvWait (h : Handle) (timeout : Z)
| EvKill (h : Handle)
| EvProcTerminate (p : Process)
| EvMakedirs (path : string)
| EvRpcAdd (op : RpcAdd) (url : string) (options : Options)
| EvGetDownloads
| EvShowError (title message : string)
| EvShowWarning (title message : string)
| EvThreadStart.

(** ** The interface to the outside

    Observations take the world and return a value; actions also return the
    next world.  [psutil_process_iter] is a generator: it yields the
    processes of the first component and then stops, or raises when the
    second component holds an exception. *)

Class OS (W : Type) : Type := {
  platform_system : W -> string;
  environ_PATH : W -> option string;
  expanduser : W -> string -> string;
  os_path_join : W -> string -> string -> string;
  os_path_exists : W -> string -> bool;
  time_strftime : W -> string;
  fmt_1f : Q -> string;
  psutil_net_connections : W -> outcome (list sconn);
  psutil_process_iter : W -> list Process * option exn;
  Popen_poll : Handle -> W -> option Z;
  Thread_is_alive : W -> bool;
  subprocess_Popen : list string -> SpawnMode -> W -> outcome Handle * W;
  time_sleep : Z -> W -> W;
  Popen_terminate : Handle -> W -> outcome unit * W;
  Popen_wait : Handle -> Z -> W -> outcome unit * W;
  Popen_kill : Handle -> W -> outcome unit * W;
  Process_terminate : Process -> W -> outcome unit * W;
  os_makedirs : string -> W -> outcome unit * W;
  aria2p_API : string -> Z -> string -> W -> outcome Client;
  client_add : Client -> RpcAdd -> string -> Options -> W -> outcome Download * W;
  client_get_downloads : Client -> W -> outcome (list Download) * W
}.

(** The world together with the log of requests. *)
Record Sys (W : Type) : Type := MkSys { world : W; events : list Event }.

Arguments MkSys {W} world events.
Arguments world {W} s.
Arguments events {W} s.

(** ** class Aria2Controller *)

Record Aria2Controller : Type := MkController {
  rpc_secret : string;
  port : Z;
  config_path : option string;
  aria2_process : option Handle;
  aria2_executable : option string;
  aria2_running : bool
}.

Definition set_aria2_process (v : option Handle) (c : Aria2Controller) :=
  MkController (rpc_secret c) (port c) (config_path c) v
               (aria2_executable c) (aria2_running c).

Definition set_aria2_running (v : bool) (c : Aria2Controller) :=
  MkController (rpc_secret c) (port c) (config_path c) (aria2_process c)
               (aria2_executable c) v.

Definition set_aria2_executable (v : option string) (c : Aria2Controller) :=
  MkController (rpc_secret c) (port c) (config_path c) (aria2_process c)
               v (aria2_running c).

Definition set_rpc_secret (v : string) (c : Aria2Controller) :=
  MkController v (port c) (config_path c) (aria2_process c)
               (aria2_executable c) (aria2_running c).

Definition set_port (v : Z) (c : Aria2Controller) :=
  MkController (rpc_secret c) v (config_path c) (aria2_process c)
               (aria2_executable c) (aria2_running c).

Section Controller.

Context {W : Type} `{OS W}.

(** State of a controller method: the object and the system. *)
Definition CSt : Type := Aria2Controller * Sys W.

(** *** Primitive steps *)

(** An action of the world, with the request logged before it is made. *)
Definition act {A : Type} (e : Event) (f : W -> outcome A * W) : M (Sys W) A :=
  fun s =>
    let (r, w') := f (world s) in
    (r, MkSys w' (events s ++ [e])).

(** An observation of the world. *)
Definition observe {A : Type} (f : W -> A) : M (Sys W) A :=
  fun s => (Ok (f (world s)), s).

(** An observation that may raise. *)
Definition observe_raising {A : Type} (f : W -> outcome A) : M (Sys W) A :=
  fun s => (f (world s), s).

Definition in_sys {A : Type} (c : M (Sys W) A) : M CSt A :=
  zoom snd (fun s' st => (fst st, s')) c.

Definition self : M CSt Aria2Controller := fun st => (Ok (fst st), st).

Definition set_self (f : Aria2Controller -> Aria2Controller) : M CSt unit :=
  modify (fun st => (f (fst st), snd st)).

(** *** _find_aria2_executable *)

Definition windows_well_known (w : W) : list string :=
  [ "C:\Program Files\Aria2\aria2c.exe";
    "C:\aria2\aria2c.exe";
    expanduser w "~\AppData\Local\Programs\aria2\aria2c.exe" ].

Definition posix_well_known : list string :=
  [ "/usr/bin/aria2c"; "/usr/local/bin/aria2c"; "/opt/homebrew/bin/aria2c" ].

(** [for path in dirs: possible_paths.append(os.path.join(path, exe))] *)
Fixpoint append_joined (w : W) (exe : string) (dirs : list string)
         (possible_paths : list string) : list string :=
  match dirs with
  | [] => possible_paths
  | d :: rest => append_joined w exe rest (possible_paths ++ [os_path_join w d exe])
  end.

(** [for path in possible_paths: if os.path.exists(path): return path]
    and [return None] after the loop. *)
Fixpoint first_existing (w : W) (possible_paths : list string) : option string :=
  match possible_paths with
  | [] => None
  | p :: rest => if os_path_exists w p then Some p else first_existing w rest
  end.

(** The candidate list the function builds; [os.environ["PATH"]] raises
    [KeyError] when the variable is not set. *)
Definition possible_paths (w : W) : outcome (list string) :=
  if String.eqb (platform_system w) "Windows" then
    match environ_PATH w with
    | Some v =>
        Ok (append_joined w "aria2c.exe" (PyStr.split ";" v) (windows_well_known w))
    | None => Raise (Exn KeyError "'PATH'")
    end
  else
    match environ_PATH w with
    | Some v =>
        Ok (append_joined w "aria2c" (PyStr.split ":" v) posix_well_known)
    | None => Raise (Exn KeyError "'PATH'")
    end.

Definition _find_aria2_executable (w : W) : outcome (option string) :=
  match possible_paths w with
  | Ok l => Ok (first_existing w l)
  | Raise e => Raise e
  end.

(** The documented priority order, platform by platform: the well-known
    install places, the name of the executable, the separator of the search
    path, and the candidates the search path contributes. *)
Definition well_known (w : W) : list string :=
  if String.eqb (platform_system w) "Windows" then windows_well_known w
  else posix_well_known.

Definition executable_name (w : W) : string :=
  if String.eqb (platform_system w) "Windows" then "aria2c.exe" else "aria2c".

Definition path_separator (w : W) : ascii :=
  if String.eqb (platform_system w) "Windows" then ";"%char else ":"%char.

Definition search_path_candidates (w : W) (v : string) : list string :=
  map (fun d => os_path_join w d (executable_name w))
      (PyStr.split (path_separator w) v).

(** [__init__] *)
Definition Aria2Controller_init (rpc_secret : string) (port : Z)
           (config_path : option string) (w : W) : outcome Aria2Controller :=
  match _find_aria2_executable w with
  | Ok exe => Ok (MkController rpc_secret port config_path None exe false)
  | Raise e => Raise e
  end.

(** *** is_aria2_running *)

(** The first loop: some connection has the port and is listening. *)
Fixpoint port_listening (p : Z) (conns : list sconn) : bool :=
  match conns with
  | [] => false
  | c :: rest =>
      if ((laddr_port c =? p) && String.eqb (conn_status c) "LISTEN")%bool
      then true else port_listening p rest
  end.

Definition name_matches (p : Process) : bool :=
  match info_name p with
  | Some n => (String.eqb n "aria2c" || String.eqb n "aria2c.exe")%bool
  | None => false
  end.

(** The second loop, over the generator: a match among the processes
    yielded returns [True]; otherwise the generator's exception, if it has
    one, is raised by the [for] statement. *)
Fixpoint name_found (procs : list Process) : bool :=
  match procs with
  | [] => false
  | p :: rest => if name_matches p then true else name_found rest
  end.

Definition process_check (w : W) : outcome bool :=
  let (procs, err) := psutil_process_iter w in
  if name_found procs then Ok true
  else match err with
       | Some e => Raise e
       | None => Ok false
       end.

Definition is_aria2_running (c : Aria2Controller) (w : W) : outcome bool :=
  match psutil_net_connections w with
  | Ok conns =>
      if port_listening (port c) conns then Ok true else process_check w
  | Raise e =>
      if (is_class AccessDenied e || is_class NoSuchProcess e)%bool
      then process_check w
      else Raise e
  end.

Definition probe : M CSt bool :=
  c <- self ;; in_sys (observe_raising (is_aria2_running c)).

(** *** start_aria2 *)

(** The ternary of the command's last literal element. *)
Definition detach_flag (w : W) : string :=
  if negb (String.eqb (platform_system w) "Windows") then "--daemon=true" else EmptyString.

(** [cmd], after the optional [cmd.append]. *)
Definition build_cmd (c : Aria2Controller) (exe : string) (w : W) : list string :=
  let cmd :=
    [ exe;
      "--enable-rpc";
      ("--rpc-listen-port=" ++ PyStr.of_int (port c))%string;
      ("--rpc-secret=" ++ rpc_secret c)%string;
      "--rpc-allow-origin-all";
      "--rpc-listen-all=true";
      detach_flag w ] in
  match config_path c with
  | Some cp =>
      if (PyStr.truthy cp && os_path_exists w cp)%bool
      then cmd ++ [("--conf-path=" ++ cp)%string]
      else cmd
  | None => cmd
  end.

(** The six literal elements that follow the executable. *)
Definition base_arguments (c : Aria2Controller) (w : W) : list string :=
  [ "--enable-rpc";
    ("--rpc-listen-port=" ++ PyStr.of_int (port c))%string;
    ("--rpc-secret=" ++ rpc_secret c)%string;
    "--rpc-allow-origin-all";
    "--rpc-listen-all=true";
    if String.eqb (platform_system w) "Windows" then EmptyString else "--daemon=true" ].

Definition spawn_mode (w : W) : SpawnMode :=
  if String.eqb (platform_system w) "Windows" then DetachedNoWindow
  else NewSessionDevNull.

Definition msg_not_found := "Aria2 executable not found".
Definition msg_already_running := "Aria2 RPC service is already running".
Definition msg_started := "Aria2 RPC service started successfully".
Definition msg_start_failed := "Failed to start Aria2 RPC service".
Definition msg_not_running := "Aria2 RPC service is not running".
Definition msg_stopped := "Aria2 RPC service stopped successfully".
Definition msg_stop_failed := "Failed to stop Aria2 RPC service".

(** The body of the [try] of [start_aria2]. *)
Definition start_body (cmd : list string) : M CSt (bool * string) :=
  mode <- in_sys (observe spawn_mode) ;;
  h <- in_sys (act (EvPopen cmd mode) (subprocess_Popen cmd mode)) ;;
  set_self (set_aria2_process (Some h)) ;;
  in_sys (act (EvSleep 2) (fun w => (Ok tt, time_sleep 2 w))) ;;
  up <- probe ;;
  if up : bool then
    set_self (set_aria2_running true) ;;
    ret (true, msg_started)
  else ret (false, msg_start_failed).

Definition start_aria2 : M CSt (bool * string) :=
  c <- self ;;
  match aria2_executable c with
  | Some exe =>
      if PyStr.truthy exe then
        up <- probe ;;
        if up : bool then ret (true, msg_already_running)
        else
          cmd <- in_sys (observe (build_cmd c exe)) ;;
          try_except (start_body cmd) any_exception
            (fun e => ret (false, ("Error starting Aria2: " ++ exn_msg e)%string))
      else ret (false, msg_not_found)
  | None => ret (false, msg_not_found)
  end.

(** *** stop_aria2 *)

(** The [if] on the owned handle: terminate, wait five seconds, kill on
    [TimeoutExpired]. *)
Definition stop_owned (c : Aria2Controller) : M (Sys W) unit :=
  match aria2_process c with
  | Some h =>
      rc <- observe (Popen_poll h) ;;
      match rc with
      | None =>
          act (EvTerminate h) (Popen_terminate h) ;;
          try_except (act (EvWait h 5) (Popen_wait h 5))
            (is_class TimeoutExpired)
            (fun _ => act (EvKill h) (Popen_kill h))
      | Some _ => ret tt
      end
  | None => ret tt
  end.

(** The loop body of the sweep over the processes yielded. *)
Definition sweep_one (p : Process) : M (Sys W) unit :=
  if name_matches p then
    try_except (act (EvProcTerminate p) (Process_terminate p))
      (is_class NoSuchProcess) (fun _ => ret tt)
  else ret tt.

Fixpoint sweep_loop (procs : list Process) : M (Sys W) unit :=
  match procs with
  | [] => ret tt
  | p :: rest => sweep_one p ;; sweep_loop rest
  end.

(** [for proc in psutil.process_iter(['pid', 'name']): ...] *)
Definition sweep : M (Sys W) unit :=
  it <- observe psutil_process_iter ;;
  sweep_loop (fst it) ;;
  match snd it with
  | Some e => raise e
  | None => ret tt
  end.

(** The world the sweep leaves behind: every matching process has been
    handed to [Process_terminate], whatever that answered. *)
Fixpoint sweep_world (procs : list Process) (w : W) : W :=
  match procs with
  | [] => w
  | p :: rest =>
      if name_matches p then sweep_world rest (snd (Process_terminate p w))
      else sweep_world rest w
  end.

(** No termination of the sweep fails with anything but [NoSuchProcess]. *)
Fixpoint sweep_quiet (procs : list Process) (w : W) : bool :=
  match procs with
  | [] => true
  | p :: rest =>
      if name_matches p then
        (match fst (Process_terminate p w) with
         | Ok _ => true
         | Raise e => is_class NoSuchProcess e
         end && sweep_quiet rest (snd (Process_terminate p w)))%bool
      else sweep_quiet rest w
  end.

(** The body of the [try] of [stop_aria2]. *)
Definition stop_body : M CSt (bool * string) :=
  c <- self ;;
  in_sys (stop_owned c) ;;
  in_sys sweep ;;
  in_sys (act (EvSleep 1) (fun w => (Ok tt, time_sleep 1 w))) ;;
  up <- probe ;;
  if negb up then
    set_self (set_aria2_running false) ;;
    ret (true, msg_stopped)
  else ret (false, msg_stop_failed).

Definition stop_aria2 : M CSt (bool * string) :=
  up <- probe ;;
  if negb up then ret (true, msg_not_running)
  else
    try_except stop_body any_exception
      (fun e => ret (false, ("Error stopping Aria2: " ++ exn_msg e)%string)).

End Controller.

(** ** class Aria2DownloaderApp

    Of the widgets only their contents are kept: the text of the entry
    variables, the lines of the status box, the rows of the two task tables
    and the state of the two service buttons. *)

(** A row of a [ttk.Treeview]: the six [values]. *)
Record Row : Type := MkRow {
  row_gid : string;
  row_filename : string;
  row_status : string;
  row_progress : string;
  row_speed : string;
  row_size : string
}.

Record App : Type := MkApp {
  controller : Aria2Controller;
  aria2_client : option Client;
  url_text : string;
  download_path_var : string;
  threads_var : string;
  speed_limit_var : string;
  aria2_path_var : string;
  rpc_secret_var : string;
  rpc_port_var : string;
  status_text : list string;
  download_tree : list Row;
  active_tree : list Row;
  start_button_normal : bool;
  stop_button_normal : bool;
  status_thread : bool
}.

Definition set_controller (v : Aria2Controller) (a : App) : App :=
  MkApp v (aria2_client a) (url_text a) (download_path_var a) (threads_var a)
        (speed_limit_var a) (aria2_path_var a) (rpc_secret_var a) (rpc_port_var a)
        (status_text a) (download_tree a) (active_tree a)
        (start_button_normal a) (stop_button_normal a) (status_thread a).

Definition set_aria2_client (v : option Client) (a : App) : App :=
  MkApp (controller a) v (url_text a) (download_path_var a) (threads_var a)
        (speed_limit_var a) (aria2_path_var a) (rpc_secret_var a) (rpc_port_var a)
        (status_text a) (download_tree a) (active_tree a)
        (start_button_normal a) (stop_button_normal a) (status_thread a).

Definition set_status_text (v : list string) (a : App) : App :=
  MkApp (controller a) (aria2_client a) (url_text a) (download_path_var a)
        (threads_var a) (speed_limit_var a) (aria2_path_var a) (rpc_secret_var a)
        (rpc_port_var a) v (download_tree a) (active_tree a)
        (start_button_normal a) (stop_button_normal a) (status_thread a).

Definition set_download_tree (v : list Row) (a : App) : App :=
  MkApp (controller a) (aria2_client a) (url_text a) (download_path_var a)
        (threads_var a) (speed_limit_var a) (aria2_path_var a) (rpc_secret_var a)
        (rpc_port_var a) (status_text a) v (active_tree a)
        (start_button_normal a) (stop_button_normal a) (status_thread a).

Definition set_active_tree (v : list Row) (a : App) : App :=
  MkApp (controller a) (aria2_client a) (url_text a) (download_path_var a)
        (threads_var a) (speed_limit_var a) (aria2_path_var a) (rpc_secret_var a)
        (rpc_port_var a) (status_text a) (download_tree a) v
        (start_button_normal a) (stop_button_normal a) (status_thread a).

Definition set_buttons (start stop : bool) (a : App) : App :=
  MkApp (controller a) (aria2_client a) (url_text a) (download_path_var a)
        (threads_var a) (speed_limit_var a) (aria2_path_var a) (rpc_secret_var a)
        (rpc_port_var a) (status_text a) (download_tree a) (active_tree a)
        start stop (status_thread a).

Definition set_status_thread (v : bool) (a : App) : App :=
  MkApp (controller a) (aria2_client a) (url_text a) (download_path_var a)
        (threads_var a) (speed_limit_var a) (aria2_path_var a) (rpc_secret_var a)
        (rpc_port_var a) (status_text a) (download_tree a) (active_tree a)
        (start_button_normal a) (stop_button_normal a) v.

(** The branch of [start_download] on the form of the link. *)
Definition route (url : string) : RpcAdd :=
  if PyStr.startswith url "magnet:" then add_magnet
  else if PyStr.endswith url ".torrent" then add_torrent
  else add_uris.

(** The [ValueError] of [int()].  Only its class matters to the handlers,
    none of which catches it; the message, which quotes the offending text
    or names the digit limit, is cut short. *)
Definition value_error : exn := Exn ValueError "invalid literal for int() with base 10".

Section Application.

Context {W : Type} `{OS W} `{Interpreter}.

Definition ASt : Type := App * Sys W.

Definition app : M ASt App := fun st => (Ok (fst st), st).

Definition set_app (f : App -> App) : M ASt unit :=
  modify (fun st => (f (fst st), snd st)).

Definition sys_of_app {A : Type} (c : M (Sys W) A) : M ASt A :=
  zoom snd (fun s' st => (fst st, s')) c.

(** A call of a method of [self.controller]. *)
Definition in_controller {A : Type} (c : M CSt A) : M ASt A :=
  zoom (fun st => (controller (fst st), snd st))
       (fun cs st => (set_controller (fst cs) (fst st), snd cs)) c.

(** The request is logged; nothing comes back from the outside. *)
Definition emit (e : Event) : M ASt unit :=
  sys_of_app (act e (fun w => (Ok tt, w))).

Definition newline : string := String "010" EmptyString.

(** *** log_status *)
Definition log_status (message : string) : M ASt unit :=
  t <- sys_of_app (observe time_strftime) ;;
  set_app (fun a =>
    set_status_text (status_text a ++ [("[" ++ t ++ "] " ++ message ++ newline)%string]) a).

(** *** connect_to_aria2 *)
Definition connect_to_aria2 : M ASt bool :=
  try_except
    (a <- app ;;
     cl <- sys_of_app (observe_raising
             (aria2p_API "http://localhost" (port (controller a))
                         (rpc_secret (controller a)))) ;;
     set_app (set_aria2_client (Some cl)) ;;
     log_status "成功连接到Aria2 RPC服务" ;;
     ret true)
    any_exception
    (fun e =>
       log_status ("连接Aria2 RPC服务失败: " ++ exn_msg e)%string ;;
       ret false).

(** [int(text)] as a computation: [ValueError] on a text that is no
    integer literal. *)
Definition py_int {S : Type} (text : string) : M S Z :=
  match PyStr.to_int text with
  | Some n => ret n
  | None => raise value_error
  end.

(** *** start_aria2_service *)
Definition start_aria2_service : M ASt unit :=
  a <- app ;;
  set_app (fun a => set_controller
             (set_aria2_executable (Some (aria2_path_var a)) (controller a)) a) ;;
  set_app (fun a => set_controller
             (set_rpc_secret (rpc_secret_var a) (controller a)) a) ;;
  p <- py_int (rpc_port_var a) ;;
  set_app (fun a => set_controller (set_port p (controller a)) a) ;;
  r <- in_controller start_aria2 ;;
  log_status (snd r) ;;
  if fst r : bool then
    set_app (set_buttons false true) ;;
    connect_to_aria2 ;;
    a' <- app ;;
    alive <- sys_of_app (observe Thread_is_alive) ;;
    if (negb (status_thread a') || negb alive)%bool then
      set_app (set_status_thread true) ;;
      emit EvThreadStart
    else ret tt
  else ret tt.

(** *** stop_aria2_service *)
Definition stop_aria2_service : M ASt unit :=
  r <- in_controller stop_aria2 ;;
  log_status (snd r) ;;
  if fst r : bool then
    set_app (set_buttons true false) ;;
    set_app (set_aria2_client None)
  else ret tt.

(** The six [values] inserted for a download. *)
Definition row_of (d : Download) : Row :=
  MkRow (gid d) (name d) (status d)
        (fmt_1f (progress d) ++ "%")%string
        (fmt_1f (Qdiv (inject_Z (download_speed d)) (inject_Z 1024)) ++ " KB/s")%string
        (fmt_1f (Qdiv (Qdiv (inject_Z (total_length d)) (inject_Z 1024))
                      (inject_Z 1024)) ++ " MB")%string.

(** *** add_to_download_list *)
Definition add_to_download_list (d : Download) : M ASt unit :=
  set_app (fun a => set_download_tree (download_tree a ++ [row_of d]) a).

(** *** start_download *)

(** The body of [for url in urls]. *)
Definition submit_one (cl : Client) (options : Options) (url : string)
  : M ASt unit :=
  if PyStr.truthy (PyStr.strip url) then
    try_except
      (d <- sys_of_app (act (EvRpcAdd (route url) url options)
                            (client_add cl (route url) url options)) ;;
       add_to_download_list d ;;
       log_status ("已添加下载任务: " ++ url)%string)
      any_exception
      (fun e => log_status ("添加下载任务失败: " ++ url ++ " - " ++ exn_msg e)%string)
  else ret tt.

Fixpoint submit_all (cl : Client) (options : Options) (urls : list string)
  : M ASt unit :=
  match urls with
  | [] => ret tt
  | url :: rest => submit_one cl options url ;; submit_all cl options rest
  end.

(** [not urls or (len(urls) == 1 and not urls[0])] *)
Definition no_urls (urls : list string) : bool :=
  match urls with
  | [] => true
  | [u] => negb (PyStr.truthy u)
  | _ => false
  end.

(** The [options] dictionary, after the optional rate limit. *)
Definition build_options (a : App) : M ASt Options :=
  let options :=
    [ ("dir", download_path_var a);
      ("split", threads_var a);
      ("max-connection-per-server", threads_var a) ] in
  let speed_limit := speed_limit_var a in
  if PyStr.truthy speed_limit then
    n <- py_int speed_limit ;;
    if 0 <? n then ret (options ++ [("max-download-limit", (speed_limit ++ "K")%string)])
    else ret options
  else ret options.

Definition start_download : M ASt unit :=
  a <- app ;;
  match aria2_client a with
  | None => emit (EvShowError "错误" "Aria2服务未启动或连接失败")
  | Some cl =>
      let urls := PyStr.splitlines (PyStr.strip (url_text a)) in
      if no_urls urls then emit (EvShowWarning "警告" "请输入下载链接")
      else
        let download_path := download_path_var a in
        present <- sys_of_app (observe (fun w => os_path_exists w download_path)) ;;
        (if present : bool then ret tt
         else sys_of_app (act (EvMakedirs download_path) (os_makedirs download_path))) ;;
        options <- build_options a ;;
        submit_all cl options urls
  end.

(** *** update_status *)

Fixpoint insert_rows (ds : list Download) : M ASt unit :=
  match ds with
  | [] => ret tt
  | d :: rest =>
      set_app (fun a => set_active_tree (active_tree a ++ [row_of d]) a) ;;
      insert_rows rest
  end.

Definition update_status : M ASt unit :=
  a <- app ;;
  up <- sys_of_app (observe_raising (is_aria2_running (controller a))) ;;
  log_status (if up : bool then "Aria2服务运行中" else "Aria2服务未运行") ;;
  match aria2_client a with
  | Some cl =>
      set_app (set_active_tree []) ;;
      ds <- sys_of_app (act EvGetDownloads (client_get_downloads cl)) ;;
      insert_rows ds
  | None => ret tt
  end.

(** *** clear_download_list *)
Definition clear_download_list : M ASt unit :=
  set_app (set_download_tree []).

(** *** Vocabulary of the statements *)

(** The line [log_status] writes. *)
Definition status_line (w : W) (message : string) : string :=
  ("[" ++ time_strftime w ++ "] " ++ message ++ newline)%string.

(** The request a link gives rise to. *)
Definition add_request (options : Options) (url : string) : Event :=
  EvRpcAdd (route url) url options.

Definition not_blank (url : string) : bool := PyStr.truthy (PyStr.strip url).

(** The three options every enqueue carries. *)
Definition base_options (a : App) : Options :=
  [ ("dir", download_path_var a);
    ("split", threads_var a);
    ("max-connection-per-server", threads_var a) ].

End Application.

(** ** A simulated world

    A small concrete instance of the interface, used to run the program on
    explicit inputs: a file list, a socket table, a process table in which
    some processes refuse termination, and an RPC endpoint that is up or
    down. *)

Module Sim.

Record World : Type := MkWorld {
  sim_platform : string;
  sim_PATH : option string;
  sim_files : list string;
  sim_conns : outcome (list sconn);
  sim_procs : list Process;
  sim_iter_error : option exn;
  sim_denied : list Z;
  sim_daemon_starts : bool;
  sim_slow_exit : bool;
  sim_rpc_up : bool;
  sim_downloads : list Download
}.

Definition with_procs (ps : list Process) (w : World) : World :=
  MkWorld (sim_platform w) (sim_PATH w) (sim_files w) (sim_conns w) ps
          (sim_iter_error w) (sim_denied w) (sim_daemon_starts w)
          (sim_slow_exit w) (sim_rpc_up w) (sim_downloads w).

Definition with_files (fs : list string) (w : World) : World :=
  MkWorld (sim_platform w) (sim_PATH w) fs (sim_conns w) (sim_procs w)
          (sim_iter_error w) (sim_denied w) (sim_daemon_starts w)
          (sim_slow_exit w) (sim_rpc_up w) (sim_downloads w).

Definition remove_pid (p : Z) (ps : list Process) : list Process :=
  filter (fun q => negb (pid q =? p)) ps.

Definition has_pid (p : Z) (ps : list Process) : bool :=
  existsb (fun q => pid q =? p) ps.

(** [os.path.join(d, f)] for a plain file name [f]: nothing is put after an
    empty directory or one that ends with a separator, nor, on Windows,
    after a bare drive. *)
Definition join (w : World) (d f : string) : string :=
  if String.eqb (sim_platform w) "Windows" then
    if (negb (PyStr.truthy d) || PyStr.endswith d "\" || PyStr.endswith d "/"
        || ((length (PyStr.chars d) =? 2)%nat && PyStr.endswith d ":"))%bool
    then (d ++ f)%string else (d ++ "\" ++ f)%string
  else
    if (negb (PyStr.truthy d) || PyStr.endswith d "/")%bool
    then (d ++ f)%string else (d ++ "/" ++ f)%string.

(** [f"{q:.1f}"]: the nearest tenth, a tie going to the even one. *)
Definition tenths (q : Q) : Z :=
  let n := (Z.abs (Qnum q) * 10)%Z in
  let d := Z.pos (Qden q) in
  let k := (n / d)%Z in
  let r := (n mod d)%Z in
  if (2 * r <? d)%Z then k
  else if (d <? 2 * r)%Z then (k + 1)%Z
  else if Z.even k then k else (k + 1)%Z.

Definition format_1f (q : Q) : string :=
  let t := tenths q in
  ((if (Qnum q <? 0)%Z then "-" else EmptyString)
     ++ PyStr.of_int (t / 10) ++ "." ++ PyStr.of_int (t mod 10))%string.

(** The digits beyond ASCII this interpreter knows: the Arabic-Indic and
    the full-width ones; the default limit of 4300 digits. *)
Definition decimal (cp : N) : option Z :=
  if ((1632 <=? cp) && (cp <=? 1641))%N%bool then Some (Z.of_N cp - 1632)%Z
  else if ((65296 <=? cp) && (cp <=? 65305))%N%bool then Some (Z.of_N cp - 65296)%Z
  else None.

#[global] Instance interpreter : Interpreter := {|
  unicode_decimal := decimal;
  int_max_str_digits := 4300
|}.

Definition home (w : World) (p : string) : string :=
  match p with
  | String "~" r =>
      ((if String.eqb (sim_platform w) "Windows" then "C:\Users\user" else "/home/user")
         ++ r)%string
  | _ => p
  end.

Definition spawn (cmd : list string) (mode : SpawnMode) (w : World)
  : outcome Handle * World :=
  match cmd with
  | exe :: _ =>
      if existsb (String.eqb exe) (sim_files w) then
        (Ok 4242,
         if sim_daemon_starts w
         then with_procs (sim_procs w ++ [Proc 4242 (Some "aria2c")]) w
         else w)
      else (Raise (Exn OSError "No such file or directory"), w)
  | [] => (Raise (Exn ValueError "empty command"), w)
  end.

Definition terminate_process (p : Process) (w : World) : outcome unit * World :=
  if existsb (Z.eqb (pid p)) (sim_denied w)
  then (Raise (Exn AccessDenied "psutil.AccessDenied"), w)
  else if has_pid (pid p) (sim_procs w)
       then (Ok tt, with_procs (remove_pid (pid p) (sim_procs w)) w)
       else (Raise (Exn NoSuchProcess "psutil.NoSuchProcess"), w).

Definition wait_handle (h : Handle) (t : Z) (w : World) : outcome unit * World :=
  if sim_slow_exit w
  then (Raise (Exn TimeoutExpired "timed out"), w)
  else (Ok tt, with_procs (remove_pid h (sim_procs w)) w).

Definition add (cl : Client) (op : RpcAdd) (url : string) (o : Options) (w : World)
  : outcome Download * World :=
  if sim_rpc_up w
  then (Ok (MkDownload "2089b05ecca3d829" url "active" 0%Q 0 0), w)
  else (Raise (Exn ClientException "Connection refused"), w).

Definition get_downloads (cl : Client) (w : World)
  : outcome (list Download) * World :=
  if sim_rpc_up w then (Ok (sim_downloads w), w)
  else (Raise (Exn ClientException "Connection refused"), w).

#[global] Instance os : OS World := {|
  platform_system := sim_platform;
  environ_PATH := sim_PATH;
  expanduser := home;
  os_path_join := join;
  os_path_exists := fun w p => existsb (String.eqb p) (sim_files w);
  time_strftime := fun _ => "12:00:00";
  fmt_1f := format_1f;
  psutil_net_connections := sim_conns;
  psutil_process_iter := fun w => (sim_procs w, sim_iter_error w);
  Popen_poll := fun h w => if has_pid h (sim_procs w) then None else Some 0;
  Thread_is_alive := fun _ => false;
  subprocess_Popen := spawn;
  time_sleep := fun _ w => w;
  Popen_terminate := fun h w => (Ok tt, w);
  Popen_wait := wait_handle;
  Popen_kill := fun h w => (Ok tt, with_procs (remove_pid h (sim_procs w)) w);
  Process_terminate := terminate_process;
  os_makedirs := fun p w => (Ok tt, with_files (sim_files w ++ [p]) w);
  aria2p_API := fun h p s _ => Ok (MkClient h p s);
  client_add := add;
  client_get_downloads := get_downloads
|}.

(** A quiet Linux machine: aria2c installed under /usr/bin, nothing
    listening, no daemon in the process table. *)
Definition linux : World :=
  MkWorld "Linux" (Some "/usr/local/sbin:/usr/bin:/bin")
          ["/usr/bin/aria2c"; "/home/user/Downloads"]
          (Ok [SConn 22 "LISTEN"; SConn 6800 "ESTABLISHED"])
          [Proc 1 (Some "systemd"); Proc 77 None]
          None [] true false true [].

(** The same machine with a daemon listening on the default port. *)
Definition linux_listening : World :=
  MkWorld "Linux" (Some "/usr/local/sbin:/usr/bin:/bin")
          ["/usr/bin/aria2c"; "/home/user/Downloads"]
          (Ok [SConn 22 "LISTEN"; SConn 6800 "LISTEN"])
          [Proc 1 (Some "systemd"); Proc 900 (Some "aria2c")]
          None [] true false true [].

Definition windows : World :=
  MkWorld "Windows" (Some "C:\Windows;C:\tools")
          ["C:\tools\aria2c.exe"]
          (Ok []) [Proc 4 (Some "System")]
          None [] true false true [].

(** A locked-down machine: the socket table refuses to be enumerated and
    no process lets its name be read. *)
Definition linux_denied : World :=
  MkWorld "Linux" (Some "/usr/bin")
          ["/usr/bin/aria2c"]
          (Raise (Exn AccessDenied "psutil.AccessDenied"))
          [Proc 1 None; Proc 900 None]
          None
          [] true false true [].

(** The same machine with a daemon whose name can be read. *)
Definition linux_denied_daemon : World :=
  with_procs [Proc 1 None; Proc 900 (Some "aria2c")] linux_denied.

(** A machine without aria2c in any candidate place, on which a daemon
    started from elsewhere listens on the default port. *)
Definition linux_foreign_daemon : World :=
  MkWorld "Linux" (Some "/usr/local/sbin:/usr/bin:/bin")
          ["/home/user/Downloads"]
          (Ok [SConn 6800 "LISTEN"])
          [Proc 1 (Some "systemd"); Proc 900 (Some "aria2c")]
          None [] true false true [].

(** The quiet machine with a configuration file in the home directory. *)
Definition linux_with_conf : World :=
  with_files ["/usr/bin/aria2c"; "/home/user/aria2.conf"] linux.

(** A controller constructed with [config_path="/home/user/aria2.conf"]. *)
Definition controller_with_conf : Aria2Controller :=
  MkController "my_secret" 6800 (Some "/home/user/aria2.conf") None
               (Some "/usr/bin/aria2c") false.

(** A machine on which the controller's own daemon (pid 4242) and two
    foreign ones run; the first foreign one belongs to another user and
    refuses termination, and the own one is slow to exit. *)
Definition linux_shared : World :=
  MkWorld "Linux" (Some "/usr/bin") ["/usr/bin/aria2c"]
          (Ok [SConn 6800 "LISTEN"])
          [Proc 1 (Some "systemd"); Proc 4242 (Some "aria2c");
           Proc 900 (Some "aria2c"); Proc 901 (Some "aria2c")]
          None [900] true true true [].

(** The same machine where every daemon may be terminated. *)
Definition linux_owned : World :=
  MkWorld "Linux" (Some "/usr/bin") ["/usr/bin/aria2c"]
          (Ok [])
          [Proc 1 (Some "systemd"); Proc 4242 (Some "aria2c");
           Proc 900 (Some "aria2c")]
          None [] true true true [].

(** A controller that started the daemon of pid 4242 itself. *)
Definition controller_owning : Aria2Controller :=
  MkController "my_secret" 6800 None (Some 4242) (Some "/usr/bin/aria2c") true.

(** The default controller of [__init__] on a machine where the
    executable was found at [exe]. *)
Definition controller_at (exe : option string) : Aria2Controller :=
  MkController "my_secret" 6800 None None exe false.

Definition boot (w : World) : Sys World := MkSys w [].

(** The window as [__init__] leaves it with the settings file absent,
    apart from the path entry, filled in by the user. *)
Definition fresh_app : App :=
  MkApp (controller_at (Some "/usr/bin/aria2c")) None
        "在此输入下载链接（每行一个）" "/home/user/Downloads" "8" "0"
        "/usr/bin/aria2c" "my_secret" "6800" [] [] [] true true false.

Definition local_client : Client := MkClient "http://localhost" 6800 "my_secret".

Definition a_download (g : string) : Download :=
  MkDownload g "y.iso" "active" 0%Q 0 0.

(** A connected window showing two tasks, with two links typed in. *)
Definition busy_app : App :=
  MkApp (controller_at (Some "/usr/bin/aria2c")) (Some local_client)
        "magnet:?xt=urn:btih:ABC
http://x/y.iso
" "/tmp/dl" "8" "0"
        "/usr/bin/aria2c" "my_secret" "6800" []
        []
        [MkRow "2089b05ecca3d829" "y.iso" "active" "0.0%" "0.0 KB/s" "0.0 MB";
         MkRow "0000000000000001" "z.iso" "paused" "0.0%" "0.0 KB/s" "0.0 MB"]
        false true true.

(** The daemon listens but the RPC endpoint does not answer. *)
Definition linux_rpc_down : World :=
  MkWorld "Linux" (Some "/usr/bin") ["/usr/bin/aria2c"; "/tmp/dl"]
          (Ok [SConn 6800 "LISTEN"]) [Proc 900 (Some "aria2c")]
          None [] true false false [].

(** The daemon listens and reports one download. *)
Definition linux_rpc_up : World :=
  MkWorld "Linux" (Some "/usr/bin") ["/usr/bin/aria2c"; "/tmp/dl"]
          (Ok [SConn 6800 "LISTEN"]) [Proc 900 (Some "aria2c")]
          None [] true false true [a_download "2089b05ecca3d829"].

Definition with_port_text (t : string) (a : App) : App :=
  MkApp (controller a) (aria2_client a) (url_text a) (download_path_var a)
        (threads_var a) (speed_limit_var a) (aria2_path_var a) (rpc_secret_var a)
        t (status_text a) (download_tree a) (active_tree a)
        (start_button_normal a) (stop_button_normal a) (status_thread a).

Definition with_speed_limit_text (t : string) (a : App) : App :=
  MkApp (controller a) (aria2_client a) (url_text a) (download_path_var a)
        (threads_var a) t (aria2_path_var a) (rpc_secret_var a)
        (rpc_port_var a) (status_text a) (download_tree a) (active_tree a)
        (start_button_normal a) (stop_button_normal a) (status_thread a).

Definition with_threads_text (t : string) (a : App) : App :=
  MkApp (controller a) (aria2_client a) (url_text a) (download_path_var a)
        t (speed_limit_var a) (aria2_path_var a) (rpc_secret_var a)
        (rpc_port_var a) (status_text a) (download_tree a) (active_tree a)
        (start_button_normal a) (stop_button_normal a) (status_thread a).

Definition with_url_text (t : string) (a : App) : App :=
  MkApp (controller a) (aria2_client a) t (download_path_var a)
        (threads_var a) (speed_limit_var a) (aria2_path_var a) (rpc_secret_var a)
        (rpc_port_var a) (status_text a) (download_tree a) (active_tree a)
        (start_button_normal a) (stop_button_normal a) (status_thread a).


End Sim.

(** ** The rest of the window

    The handlers that pause and resume a task, save the settings and close
    the window, and the constructor.  They need three more things from the
    outside: one download looked up by its gid, its [pause] and [resume],
    and the settings file read and written as a JSON object of strings. *)

(** The [settings] dictionary, in insertion order. *)
Definition Settings : Type := list (string * string).

Class Desk (W : Type) : Type := {
  client_get_download : Client -> string -> W -> outcome Download * W;
  Download_pause : Download -> W -> outcome unit * W;
  Download_resume : Download -> W -> outcome unit * W;
  json_load_file : string -> W -> outcome Settings;
  json_dump_file : string -> Settings -> W -> outcome unit * W
}.

(** [d.get(key, default)]: the last binding of the key counts, as in the
    dictionary [json.load] builds. *)
Fixpoint dict_get (d : Settings) (key default : string) : string :=
  match d with
  | [] => default
  | (k, v) :: rest =>
      dict_get rest key (if String.eqb k key then v else default)
  end.

(** The attributes of the window that the first part did not need. *)
Record Window : Type := MkWindow {
  win_app : App;
  default_path_var : string;
  running : bool;
  destroyed : bool
}.

Definition set_win_app (v : App) (x : Window) : Window :=
  MkWindow v (default_path_var x) (running x) (destroyed x).

Definition set_running (v : bool) (x : Window) : Window :=
  MkWindow (win_app x) (default_path_var x) v (destroyed x).

Definition set_destroyed (v : bool) (x : Window) : Window :=
  MkWindow (win_app x) (default_path_var x) (running x) v.

Definition settings_file : string := "aria2_settings.json".

(** The dictionary [save_settings] writes. *)
Definition settings_of (x : Window) : Settings :=
  [ ("aria2_path", aria2_path_var (win_app x));
    ("rpc_secret", rpc_secret_var (win_app x));
    ("rpc_port", rpc_port_var (win_app x));
    ("default_path", default_path_var x);
    ("threads", threads_var (win_app x));
    ("speed_limit", speed_limit_var (win_app x)) ].

(** The seven [set] calls of [load_settings]; [home] is
    [os.path.expanduser("~/Downloads")]. *)
Definition apply_settings (settings : Settings) (home : string) (x : Window)
  : Window :=
  let a := win_app x in
  MkWindow
    (MkApp (controller a) (aria2_client a) (url_text a)
           (dict_get settings "default_path" home)
           (dict_get settings "threads" "8")
           (dict_get settings "speed_limit" "0")
           (dict_get settings "aria2_path" EmptyString)
           (dict_get settings "rpc_secret" "my_secret")
           (dict_get settings "rpc_port" "6800")
           (status_text a) (download_tree a) (active_tree a)
           (start_button_normal a) (stop_button_normal a) (status_thread a))
    (dict_get settings "default_path" home)
    (running x) (destroyed x).

(** How the construction of an object ends: built, or left by an exception
    of the outside, or left by the [AttributeError] of an attribute read
    before the constructor created it. *)
Inductive startup (A : Type) : Type :=
| Built (a : A)
| Failed (e : exn)
| FailedAttribute (attr : string).

Arguments Built {A} a.
Arguments Failed {A} e.
Arguments FailedAttribute {A} attr.

Section Window.

Context {W : Type} `{OS W} `{Desk W} `{Interpreter}.

Definition WSt : Type := Window * Sys W.

Definition window : M WSt Window := fun st => (Ok (fst st), st).

Definition set_window (f : Window -> Window) : M WSt unit :=
  modify (fun st => (f (fst st), snd st)).

(** A handler of the first part, run on the window. *)
Definition in_app {A : Type} (c : M ASt A) : M WSt A :=
  zoom (fun st => (win_app (fst st), snd st))
       (fun as_ st => (set_win_app (fst as_) (fst st), snd as_)) c.

(** An action of the world that the request log has no entry for. *)
Definition act_quiet {A : Type} (f : W -> outcome A * W) : M ASt A :=
  fun st =>
    let (r, w') := f (world (snd st)) in
    (r, (fst st, MkSys w' (events (snd st)))).

(** *** pause_download, resume_download

    [selected] is what [self.download_tree.selection()] returns, each item
    given by its row. *)

Definition pause_one (cl : Client) (item : Row) : M ASt unit :=
  try_except
    (download <- act_quiet (client_get_download cl (row_gid item)) ;;
     act_quiet (Download_pause download) ;;
     log_status ("已暂停任务: " ++ name download)%string)
    any_exception
    (fun _ => ret tt).

Fixpoint pause_each (cl : Client) (selected : list Row) : M ASt unit :=
  match selected with
  | [] => ret tt
  | item :: rest => pause_one cl item ;; pause_each cl rest
  end.

Definition pause_download (selected : list Row) : M ASt unit :=
  a <- app ;;
  match aria2_client a with
  | None => ret tt
  | Some cl => pause_each cl selected
  end.

Definition resume_one (cl : Client) (item : Row) : M ASt unit :=
  try_except
    (download <- act_quiet (client_get_download cl (row_gid item)) ;;
     act_quiet (Download_resume download) ;;
     log_status ("已恢复任务: " ++ name download)%string)
    any_exception
    (fun _ => ret tt).

Fixpoint resume_each (cl : Client) (selected : list Row) : M ASt unit :=
  match selected with
  | [] => ret tt
  | item :: rest => resume_one cl item ;; resume_each cl rest
  end.

Definition resume_download (selected : list Row) : M ASt unit :=
  a <- app ;;
  match aria2_client a with
  | None => ret tt
  | Some cl => resume_each cl selected
  end.

(** *** save_settings *)
Definition save_settings : M WSt unit :=
  x <- window ;;
  try_except
    (in_app (act_quiet (json_dump_file settings_file (settings_of x))) ;;
     in_app (log_status "设置已保存"))
    any_exception
    (fun e => in_app (log_status ("保存设置失败: " ++ exn_msg e)%string)).

(** *** on_closing *)
Definition on_closing : M WSt unit :=
  set_window (set_running false) ;;
  x <- window ;;
  up <- in_app (sys_of_app (observe_raising
                  (is_aria2_running (controller (win_app x))))) ;;
  (if up : bool then r <- in_app (in_controller stop_aria2) ;; ret tt
   else ret tt) ;;
  set_window (set_destroyed true).

(** *** load_settings

    Its only caller is [setup_settings_tab], which the constructor runs
    before [setup_status_tab] creates [self.status_text]: a call of
    [log_status] there ends with [AttributeError].  The result is how the
    call ends and the window as it leaves it. *)

(** [self.log_status(...)] while [self.status_text] does not exist. *)
Definition log_status_too_early : startup unit := FailedAttribute "status_text".

Definition load_settings (x : Window) (w : W) : startup unit * Window :=
  let tried :=
    if os_path_exists w settings_file then
      match json_load_file settings_file w with
      | Ok settings =>
          (log_status_too_early,
           apply_settings settings (expanduser w "~/Downloads") x)
      | Raise e => (Failed e, x)
      end
    else (Built tt, x) in
  match tried with
  | (Built u, x') => (Built u, x')
  | (Failed _, x') | (FailedAttribute _, x') =>
      (* except Exception as e: self.log_status(...) *)
      (log_status_too_early, x')
  end.

(** *** __init__ *)

(** [start_aria2_service] up to the statement that reads
    [self.status_thread], which the constructor assigns only after the
    call: the answer tells whether that statement is reached. *)
Definition start_aria2_service_unthreaded : M ASt bool :=
  a <- app ;;
  set_app (fun a => set_controller
             (set_aria2_executable (Some (aria2_path_var a)) (controller a)) a) ;;
  set_app (fun a => set_controller
             (set_rpc_secret (rpc_secret_var a) (controller a)) a) ;;
  p <- py_int (rpc_port_var a) ;;
  set_app (fun a => set_controller (set_port p (controller a)) a) ;;
  r <- in_controller start_aria2 ;;
  log_status (snd r) ;;
  if fst r : bool then
    set_app (set_buttons false true) ;;
    connect_to_aria2 ;;
    ret true
  else ret false.

(** The attributes as the three [setup_] methods create them. *)
Definition blank_window (c : Aria2Controller) (w : W) : Window :=
  MkWindow
    (MkApp c None "在此输入下载链接（每行一个）" (expanduser w "~/Downloads")
           "8" "0" EmptyString "my_secret" "6800" [] [] [] true true false)
    (expanduser w "~/Downloads") false false.

Definition Aria2DownloaderApp_init (w : W) : startup Window * Sys W :=
  let s0 := MkSys w [] in
  match Aria2Controller_init "my_secret" 6800 None w with
  | Raise e => (Failed e, s0)
  | Ok c =>
      match load_settings (blank_window c w) w with
      | (Built _, x) =>
          match start_aria2_service_unthreaded (win_app x, s0) with
          | (Ok true, (_, s)) => (FailedAttribute "status_thread", s)
          | (Ok false, (a, s)) => (Built (set_running true (set_win_app a x)), s)
          | (Raise e, (_, s)) => (Failed e, s)
          end
      | (Failed e, _) => (Failed e, s0)
      | (FailedAttribute attr, _) => (FailedAttribute attr, s0)
      end
  end.

(** The requests [stop_aria2] may make of a controller: to its own handle,
    with the five-second wait; to a process of a matching name; the
    one-second wait. *)
Definition stop_request (c : Aria2Controller) (e : Event) : Prop :=
  match e with
  | EvTerminate h | EvKill h => aria2_process c = Some h
  | EvWait h t => aria2_process c = Some h /\ t = 5
  | EvProcTerminate p => name_matches p = true
  | EvSleep t => t = 1
  | _ => False
  end.

(** One item of the selection, for either operation: what the [try]
    leaves, whichever of its three steps fails. *)
Definition control_one (cl : Client) (item : Row)
           (op : Download -> W -> outcome unit * W) (label : string)
           (a : App) (s : Sys W) : App * Sys W :=
  match client_get_download cl (row_gid item) (world s) with
  | (Ok d, w1) =>
      match op d w1 with
      | (Ok _, w2) =>
          (set_status_text
             (status_text a ++ [status_line w2 (label ++ name d)%string]) a,
           MkSys w2 (events s))
      | (Raise _, w2) => (a, MkSys w2 (events s))
      end
  | (Raise _, w1) => (a, MkSys w1 (events s))
  end.

(** What a handler leaves alone when it only writes to the status box. *)
Definition only_logs (n : nat) (a a' : App) : Prop :=
  (exists lines, status_text a' = status_text a ++ lines /\ (length lines <= n)%nat) /\
  download_tree a' = download_tree a /\
  active_tree a' = active_tree a /\
  aria2_client a' = aria2_client a /\
  controller a' = controller a.

End Window.

(** The simulated world has no storage for the settings: a settings file
    that exists holds the dictionary of a fixed earlier session. *)
Module SimDesk.

Definition stored : Settings :=
  [ ("aria2_path", "/usr/bin/aria2c"); ("rpc_secret", "s3cr3t");
    ("rpc_port", "6801"); ("default_path", "/data/dl");
    ("threads", "16"); ("speed_limit", "512") ].

Definition load (p : string) (w : Sim.World) : outcome Settings :=
  if existsb (String.eqb p) (Sim.sim_files w) then Ok stored
  else Raise (Exn OSError "No such file or directory").

Definition dump (p : string) (d : Settings) (w : Sim.World)
  : outcome unit * Sim.World :=
  (Ok tt, Sim.with_files (Sim.sim_files w ++ [p]) w).

Definition get_download (cl : Client) (g : string) (w : Sim.World)
  : outcome Download * Sim.World :=
  if Sim.sim_rpc_up w then (Ok (Sim.a_download g), w)
  else (Raise (Exn ClientException "Connection refused"), w).

#[global] Instance desk : Desk Sim.World := {|
  client_get_download := get_download;
  Download_pause := fun _ w => (Ok tt, w);
  Download_resume := fun _ w => (Ok tt, w);
  json_load_file := load;
  json_dump_file := dump
|}.

(** The quiet machine after a session that saved its settings. *)
Definition linux_saved : Sim.World :=
  Sim.with_files ["/usr/bin/aria2c"; "aria2_settings.json"] Sim.linux.

(** The quiet machine with the search path unset. *)
Definition linux_no_path : Sim.World :=
  Sim.MkWorld "Linux" None ["/usr/bin/aria2c"]
              (Ok []) [Proc 1 (Some "systemd")] None [] true false true [].

(** The entries as the constructor leaves them: the path entry is empty. *)
Definition first_app : App :=
  win_app (blank_window (Sim.controller_at (Some "/usr/bin/aria2c")) Sim.linux).

Definition busy_window : Window := MkWindow Sim.busy_app "/home/user/Downloads" true false.

End SimDesk.

(** * Properties *)

(** ** Python string helpers on the inputs the scenarios use *)

Example split_path :
  PyStr.split ":" "/usr/local/sbin:/usr/bin:" = ["/usr/local/sbin"; "/usr/bin"; EmptyString].
Proof. reflexivity. Qed.

Example splitlines_text :
  PyStr.splitlines (PyStr.strip "  magnet:?xt=urn:btih:ABC
http://x/y.iso

") = ["magnet:?xt=urn:btih:ABC"; "http://x/y.iso"].
Proof. reflexivity. Qed.

(** White space and line breaks beyond ASCII: U+3000 and U+0085 are
    stripped; U+2028, U+0085, U+001C and a carriage return with its line
    feed each end a line. *)
Example strip_unicode :
  PyStr.strip ("　a" ++ String "194" (String "133" EmptyString)) = "a" /\
  PyStr.strip (String "028" " x " ++ String "031" EmptyString) = "x" /\
  PyStr.strip "é a é" = "é a é".
Proof. repeat split. Qed.

Example splitlines_unicode :
  PyStr.splitlines
    ("a" ++ String "226" (String "128" (String "168" "b"))
         ++ String "194" (String "133" "c")
         ++ String "013" (String "010" "d")
         ++ String "028" "e" ++ String "010" EmptyString)
  = ["a"; "b"; "c"; "d"; "e"] /\
  PyStr.splitlines EmptyString = [] /\
  PyStr.splitlines (String "010" EmptyString) = [EmptyString] /\
  PyStr.splitlines ("a" ++ String "010" (String "010" "b")) = ["a"; EmptyString; "b"].
Proof. repeat split. Qed.

Example to_int_samples :
  (PyStr.to_int "6800", PyStr.to_int " -12 ", PyStr.to_int "1_000",
   PyStr.to_int "abc", PyStr.to_int EmptyString, PyStr.to_int "68_")
  = (Some 6800, Some (-12), Some 1000, None, None, None).
Proof. reflexivity. Qed.

(** [int()] reads the decimal digits of every script and takes Unicode
    white space for blanks, but not the separators U+001C to U+001F, which
    are below 127 and no blanks of C; beyond 4300 digits it refuses. *)
Example to_int_unicode :
  (PyStr.to_int "６８００", PyStr.to_int "-٥", PyStr.to_int "　42",
   PyStr.to_int (String "028" "42"), PyStr.to_int "- 5", PyStr.to_int "1__0",
   PyStr.to_int "+7")
  = (Some 6800, Some (-5), Some 42, None, None, None, Some 7) /\
  PyStr.to_int (String.concat EmptyString (repeat "1" 4301)) = None /\
  PyStr.to_int (String.concat EmptyString (repeat "0" 4300)) = Some 0.
Proof. split; [reflexivity|]. split; vm_compute; reflexivity. Qed.

(** [os.path.join] on the two platforms. *)
Example join_samples :
  (os_path_join Sim.windows "C:\tools" "aria2c.exe",
   os_path_join Sim.windows "C:" "aria2c.exe",
   os_path_join Sim.windows "C:/d/" "aria2c.exe",
   os_path_join Sim.windows "C:d" "aria2c.exe",
   os_path_join Sim.windows EmptyString "aria2c.exe")
  = ("C:\tools\aria2c.exe", "C:aria2c.exe", "C:/d/aria2c.exe", "C:d\aria2c.exe",
     "aria2c.exe") /\
  (os_path_join Sim.linux "/usr/bin" "aria2c",
   os_path_join Sim.linux "/usr/bin/" "aria2c",
   os_path_join Sim.linux EmptyString "aria2c")
  = ("/usr/bin/aria2c", "/usr/bin/aria2c", "aria2c").
Proof. split; reflexivity. Qed.

(** One decimal, ties to even. *)
Example format_samples :
  (fmt_1f (1 # 4), fmt_1f (3 # 4), fmt_1f (1536 # 1024), fmt_1f (123456 # 100),
   fmt_1f (9995 # 100), fmt_1f (- 1 # 100), fmt_1f 0)
  = ("0.2", "0.8", "1.5", "1234.6", "100.0", "-0.0", "0.0").
Proof. reflexivity. Qed.

Example of_int_port : PyStr.of_int 6800 = "6800".
Proof. reflexivity. Qed.

Section ControllerFacts.

Context {W : Type} `{OS W}.

(** *** The probe *)

Lemma port_listening_true (p : Z) (conns : list sconn) :
  port_listening p conns = true <->
  exists c, In c conns /\ laddr_port c = p /\ conn_status c = "LISTEN".
Proof.
  induction conns as [|c rest IH]; simpl.
  - split; [discriminate | intros (c & [] & _)].
  - destruct ((laddr_port c =? p) && String.eqb (conn_status c) "LISTEN")%bool eqn:E.
    + split; [intros _ | reflexivity].
      apply andb_true_iff in E as [E1 E2].
      exists c. repeat split; [now left | now apply Z.eqb_eq | now apply String.eqb_eq].
    + rewrite IH. split.
      * intros (c' & Hin & Hp & Hs). exists c'. auto.
      * intros (c' & [<- | Hin] & Hp & Hs).
        -- apply andb_false_iff in E as [E | E].
           ++ apply Z.eqb_neq in E. contradiction.
           ++ apply String.eqb_neq in E. contradiction.
        -- exists c'. auto.
Qed.

Lemma name_found_true (procs : list Process) :
  name_found procs = true <->
  exists p, In p procs /\
            (info_name p = Some "aria2c" \/ info_name p = Some "aria2c.exe").
Proof.
  induction procs as [|p rest IH]; simpl.
  - split; [discriminate | intros (p & [] & _)].
  - destruct (name_matches p) eqn:E.
    + split; [intros _ | reflexivity].
      exists p. split; [now left|].
      unfold name_matches in E. destruct (info_name p) as [n|]; [|discriminate].
      apply orb_true_iff in E as [E | E]; apply String.eqb_eq in E; subst; auto.
    + rewrite IH. split.
      * intros (q & Hin & Hq). exists q. auto.
      * intros (q & [<- | Hin] & Hq).
        -- unfold name_matches in E. destruct Hq as [Hq | Hq]; rewrite Hq in E;
             discriminate.
        -- exists q. auto.
Qed.

(** A listening socket on the port settles the probe at once. *)
Lemma is_aria2_running_port (c : Aria2Controller) (w : W) (conns : list sconn) :
  psutil_net_connections w = Ok conns ->
  port_listening (port c) conns = true ->
  is_aria2_running c w = Ok true.
Proof. intros Hc Hp. unfold is_aria2_running. now rewrite Hc, Hp. Qed.

(** A permission error of the socket enumeration is swallowed: the probe
    goes on to the process check. *)
Lemma is_aria2_running_socket_error (c : Aria2Controller) (w : W) (e : exn) :
  psutil_net_connections w = Raise e ->
  exn_cls e = AccessDenied \/ exn_cls e = NoSuchProcess ->
  is_aria2_running c w = process_check w.
Proof.
  intros Hc [He | He]; unfold is_aria2_running, is_class; rewrite Hc, He; reflexivity.
Qed.

(** A matching process name is found even when the socket check was
    inconclusive. *)
Lemma process_check_found (w : W) :
  name_found (fst (psutil_process_iter w)) = true -> process_check w = Ok true.
Proof.
  unfold process_check. destruct (psutil_process_iter w) as [procs err]; simpl.
  now intros ->.
Qed.

(** An exception of the process enumeration has no handler. *)
Lemma process_check_raises (w : W) (procs : list Process) (e : exn) :
  psutil_process_iter w = (procs, Some e) ->
  name_found procs = false ->
  process_check w = Raise e.
Proof. intros Hp Hn. unfold process_check. now rewrite Hp, Hn. Qed.

(** [False] comes out only when the socket check found nothing (or was
    denied) and the process enumeration ended without a match. *)
Lemma is_aria2_running_false (c : Aria2Controller) (w : W) :
  is_aria2_running c w = Ok false ->
  (match psutil_net_connections w with
   | Ok conns => port_listening (port c) conns = false
   | Raise e => exn_cls e = AccessDenied \/ exn_cls e = NoSuchProcess
   end) /\
  name_found (fst (psutil_process_iter w)) = false /\
  snd (psutil_process_iter w) = None.
Proof.
  unfold is_aria2_running, process_check.
  destruct (psutil_process_iter w) as [procs err]; simpl.
  destruct (psutil_net_connections w) as [conns | e].
  - destruct (port_listening (port c) conns); [discriminate|].
    destruct (name_found procs); [discriminate|].
    destruct err; [discriminate|]. auto.
  - unfold is_class.
    destruct (exn_cls e) eqn:E; simpl; try discriminate;
      (destruct (name_found procs); [discriminate|]);
      (destruct err; [discriminate|]); auto.
Qed.

(** With an enumeration of the processes that ends, the probe answers, and
    its answer is the disjunction of the two checks. *)
Lemma is_aria2_running_answer (c : Aria2Controller) (w : W) :
  snd (psutil_process_iter w) = None ->
  match psutil_net_connections w with
  | Ok conns =>
      is_aria2_running c w =
        Ok (port_listening (port c) conns || name_found (fst (psutil_process_iter w)))
  | Raise e =>
      exn_cls e = AccessDenied \/ exn_cls e = NoSuchProcess ->
      is_aria2_running c w = Ok (name_found (fst (psutil_process_iter w)))
  end.
Proof.
  intros Hi.
  assert (Hp : process_check w = Ok (name_found (fst (psutil_process_iter w)))).
  { unfold process_check. destruct (psutil_process_iter w) as [procs err].
    simpl in *. subst err. now destruct (name_found procs). }
  destruct (psutil_net_connections w) as [conns | e] eqn:Hc.
  - unfold is_aria2_running. rewrite Hc.
    destruct (port_listening (port c) conns); [reflexivity | exact Hp].
  - intros He. now rewrite (is_aria2_running_socket_error c w Hc He).
Qed.

(** C2.  [psutil.process_iter(['name'])] raises no permission error: a
    process whose name may not be read is yielded with the name [None], one
    that vanished is left out, and the enumeration ends (the hypothesis).
    Then the probe is best-effort on both sides.  Whether the socket
    enumeration answered or raised a permission error, which is swallowed,
    [is_aria2_running] returns a boolean, and it is [True] exactly when a
    socket listens on the port (none is known when the socket table was
    denied) or a process is called [aria2c] or [aria2c.exe]; [False]
    therefore only when both checks ended without a match, a denied
    socket table and processes of unreadable name included. *)
Theorem is_aria2_running_best_effort (c : Aria2Controller) (w : W) :
  snd (psutil_process_iter w) = None ->
  let named :=
    exists p, In p (fst (psutil_process_iter w)) /\
              (info_name p = Some "aria2c" \/ info_name p = Some "aria2c.exe") in
  match psutil_net_connections w with
  | Ok conns =>
      let listening :=
        exists k, In k conns /\ laddr_port k = port c /\ conn_status k = "LISTEN" in
      exists b : bool,
        is_aria2_running c w = Ok b /\ (b = true <-> listening \/ named)
  | Raise e =>
      exn_cls e = AccessDenied \/ exn_cls e = NoSuchProcess ->
      exists b : bool, is_aria2_running c w = Ok b /\ (b = true <-> named)
  end.
Proof.
  intros Hi named. pose proof (is_aria2_running_answer c w Hi) as Ha.
  destruct (psutil_net_connections w) as [conns | e].
  - intros listening. eexists. split; [exact Ha|].
    rewrite orb_true_iff, port_listening_true, name_found_true. reflexivity.
  - intros He. eexists. split; [exact (Ha He)|].
    rewrite name_found_true. reflexivity.
Qed.

(** *** The locator *)

Lemma append_joined_app (w : W) (exe : string) (dirs acc : list string) :
  append_joined w exe dirs acc = acc ++ map (fun d => os_path_join w d exe) dirs.
Proof.
  revert acc. induction dirs as [|d rest IH]; intros acc; simpl.
  - now rewrite app_nil_r.
  - rewrite IH, <- app_assoc. reflexivity.
Qed.

Lemma possible_paths_order (w : W) (v : string) :
  environ_PATH w = Some v ->
  possible_paths w = Ok (well_known w ++ search_path_candidates w v).
Proof.
  intros Hv.
  unfold possible_paths, well_known, search_path_candidates, executable_name,
    path_separator.
  rewrite Hv. destruct (String.eqb (platform_system w) "Windows");
    now rewrite append_joined_app.
Qed.

Lemma first_existing_some (w : W) (l : list string) (p : string) :
  first_existing w l = Some p ->
  exists before after,
    l = before ++ p :: after /\ os_path_exists w p = true /\
    Forall (fun q => os_path_exists w q = false) before.
Proof.
  induction l as [|q rest IH]; simpl; [discriminate|].
  destruct (os_path_exists w q) eqn:E.
  - intros [= <-]. exists [], rest. auto.
  - intros Hr. destruct (IH Hr) as (before & after & -> & Hp & Hb).
    exists (q :: before), after. auto.
Qed.

Lemma first_existing_none (w : W) (l : list string) :
  first_existing w l = None -> Forall (fun q => os_path_exists w q = false) l.
Proof.
  induction l as [|q rest IH]; simpl; [constructor|].
  destruct (os_path_exists w q) eqn:E; [discriminate|]. auto.
Qed.

Lemma first_existing_app (w : W) (l1 l2 : list string) :
  first_existing w (l1 ++ l2) =
  match first_existing w l1 with
  | Some p => Some p
  | None => first_existing w l2
  end.
Proof.
  induction l1 as [|q rest IH]; simpl; [reflexivity|].
  now destruct (os_path_exists w q).
Qed.

Lemma first_existing_in (w : W) (l : list string) (p : string) :
  first_existing w l = Some p -> In p l.
Proof.
  intros Hr. destruct (first_existing_some w l Hr) as (b & a & -> & _).
  apply in_or_app. right. now left.
Qed.

(** [PATH.split(sep)] gives back the directories a search path was made
    of. *)
Lemma split_free (sep : ascii) (d : string) :
  ~ In sep (list_ascii_of_string d) -> PyStr.split sep d = [d].
Proof.
  induction d as [|c d IH]; simpl; [reflexivity|].
  intros Hn. destruct (Ascii.eqb c sep) eqn:E.
  - apply Ascii.eqb_eq in E. subst c. exfalso. apply Hn. now left.
  - rewrite IH; [reflexivity|]. intros Hi. apply Hn. now right.
Qed.

Lemma split_append (sep : ascii) (d rest : string) :
  ~ In sep (list_ascii_of_string d) ->
  PyStr.split sep (d ++ String sep rest) = d :: PyStr.split sep rest.
Proof.
  induction d as [|c d IH]; simpl.
  - intros _. now rewrite Ascii.eqb_refl.
  - intros Hn. destruct (Ascii.eqb c sep) eqn:E.
    + apply Ascii.eqb_eq in E. subst c. exfalso. apply Hn. now left.
    + rewrite IH; [reflexivity|]. intros Hi. apply Hn. now right.
Qed.

Lemma split_concat (sep : ascii) (dirs : list string) :
  dirs <> [] ->
  Forall (fun d => ~ In sep (list_ascii_of_string d)) dirs ->
  PyStr.split sep (String.concat (String sep EmptyString) dirs) = dirs.
Proof.
  induction dirs as [|d rest IH]; [congruence|].
  intros _ Hf. inversion Hf as [|? ? Hd Hrest]; subst.
  destruct rest as [|d' rest'].
  - simpl. now apply split_free.
  - change (String.concat (String sep EmptyString) (d :: d' :: rest'))
      with (d ++ String sep (String.concat (String sep EmptyString) (d' :: rest')))%string.
    rewrite split_append by assumption.
    rewrite IH; [reflexivity | discriminate | assumption].
Qed.

Lemma first_existing_first (w : W) (l : list string) :
  match first_existing w l with
  | Some p =>
      exists before after,
        l = before ++ p :: after /\ os_path_exists w p = true /\
        Forall (fun q => os_path_exists w q = false) before
  | None => Forall (fun q => os_path_exists w q = false) l
  end.
Proof.
  destruct (first_existing w l) as [p|] eqn:Hr.
  - now apply first_existing_some.
  - now apply first_existing_none.
Qed.

(** C6, and where the code departs from it.  The well-known places are the
    three of the platform, in the order written here; the search path,
    made of the directories [dirs] with the separator of the platform,
    gives one candidate per directory, in order, after them.  With the
    search path set, [_find_aria2_executable] returns the first candidate
    that exists (nothing before it exists), a search-path candidate only
    when no well-known place exists, and [None] exactly when no candidate
    exists.  With the search path not set it returns nothing: reading
    [os.environ["PATH"]] raises [KeyError], whatever exists, a well-known
    place included. *)
Theorem find_aria2_executable_priority (w : W) :
  let windows := String.eqb (platform_system w) "Windows" in
  let places :=
    if windows
    then [ "C:\Program Files\Aria2\aria2c.exe";
           "C:\aria2\aria2c.exe";
           expanduser w "~\AppData\Local\Programs\aria2\aria2c.exe" ]
    else [ "/usr/bin/aria2c"; "/usr/local/bin/aria2c"; "/opt/homebrew/bin/aria2c" ] in
  let exe := if windows then "aria2c.exe" else "aria2c" in
  let sep := if windows then ";"%char else ":"%char in
  (forall dirs : list string,
      dirs <> [] ->
      Forall (fun d => ~ In sep (list_ascii_of_string d)) dirs ->
      environ_PATH w = Some (String.concat (String sep EmptyString) dirs) ->
      let candidates := places ++ map (fun d => os_path_join w d exe) dirs in
      exists r,
        _find_aria2_executable w = Ok r /\
        match r with
        | Some p =>
            (exists before after,
                candidates = before ++ p :: after /\
                os_path_exists w p = true /\
                Forall (fun q => os_path_exists w q = false) before) /\
            (In p places \/ Forall (fun q => os_path_exists w q = false) places)
        | None => Forall (fun q => os_path_exists w q = false) candidates
        end) /\
  (environ_PATH w = None ->
   _find_aria2_executable w = Raise (Exn KeyError "'PATH'")).
Proof.
  intros windows places exe sep. split.
  - intros dirs Hne Hfree Hv candidates.
    assert (Hc : possible_paths w = Ok candidates).
    { rewrite (possible_paths_order w Hv).
      unfold candidates, places, exe, well_known, search_path_candidates,
        executable_name, path_separator, windows_well_known, posix_well_known.
      fold windows. replace (if windows then ";"%char else ":"%char) with sep
        by reflexivity.
      rewrite (@split_concat sep dirs Hne Hfree). now destruct windows. }
    unfold _find_aria2_executable. rewrite Hc.
    exists (first_existing w candidates). split; [reflexivity|].
    pose proof (first_existing_first w candidates) as Hfirst.
    destruct (first_existing w candidates) as [p|] eqn:Hr; [|exact Hfirst].
    split; [exact Hfirst|].
    unfold candidates in Hr. rewrite first_existing_app in Hr.
    destruct (first_existing w places) as [p'|] eqn:Hw.
    + injection Hr as <-. left. now apply first_existing_in with (w := w).
    + right. now apply first_existing_none.
  - intros Hv. unfold _find_aria2_executable, possible_paths. rewrite Hv.
    now destruct (String.eqb (platform_system w) "Windows").
Qed.

End ControllerFacts.

Section ControllerTheorems.

Context {W : Type} `{OS W}.

(** Unfolds the plumbing of the monad. *)
Ltac run :=
  cbv beta iota zeta
      delta [probe self set_self in_sys zoom observe observe_raising act
             modify bind ret raise try_except get put fst snd world events] in *.

Lemma probe_run (c : Aria2Controller) (s : Sys W) :
  probe (c, s) = (is_aria2_running c (world s), (c, s)).
Proof. run. reflexivity. Qed.

Lemma stop_aria2_run_not_running (c : Aria2Controller) (s : Sys W) :
  is_aria2_running c (world s) = Ok false ->
  stop_aria2 (c, s) = (Ok (true, msg_not_running), (c, s)).
Proof.
  intros Hp. unfold stop_aria2. run. rewrite Hp. reflexivity.
Qed.

(** C4. When the probe reports the daemon not running, [stop_aria2]
    returns success with the "not running" message, asks the outside for
    nothing (the event log and the world are the same) and leaves the
    controller as it was; a second call on the state it left does the
    same. *)
Theorem stop_aria2_not_running_noop (c : Aria2Controller) (s : Sys W) :
  is_aria2_running c (world s) = Ok false ->
  stop_aria2 (c, s) = (Ok (true, msg_not_running), (c, s)) /\
  stop_aria2 (snd (stop_aria2 (c, s))) = stop_aria2 (c, s).
Proof.
  intros Hp. rewrite (stop_aria2_run_not_running c s Hp). simpl.
  split; [reflexivity | exact (stop_aria2_run_not_running c s Hp)].
Qed.

(** *** start_aria2 *)

Lemma is_aria2_running_port_only (c c' : Aria2Controller) (w : W) :
  port c = port c' -> is_aria2_running c w = is_aria2_running c' w.
Proof. intros E. unfold is_aria2_running. now rewrite E. Qed.

Lemma start_aria2_run_no_executable (c : Aria2Controller) (s : Sys W) :
  truthy_opt (aria2_executable c) = false ->
  start_aria2 (c, s) = (Ok (false, msg_not_found), (c, s)).
Proof.
  intros Hx. unfold start_aria2. run.
  destruct (aria2_executable c) as [exe|]; [|reflexivity].
  simpl in Hx. now rewrite Hx.
Qed.

Lemma start_aria2_run_already_running (c : Aria2Controller) (s : Sys W) :
  truthy_opt (aria2_executable c) = true ->
  is_aria2_running c (world s) = Ok true ->
  start_aria2 (c, s) = (Ok (true, msg_already_running), (c, s)).
Proof.
  intros Hx Hp. unfold start_aria2. run.
  destruct (aria2_executable c) as [exe|]; [|discriminate].
  simpl in Hx. rewrite Hx, Hp. reflexivity.
Qed.

(** What [start_aria2] does once it has decided to spawn: the command, the
    request to [Popen], the two-second wait and the second probe. *)
Lemma start_aria2_run_spawn (c : Aria2Controller) (s : Sys W) (exe : string) :
  aria2_executable c = Some exe ->
  PyStr.truthy exe = true ->
  is_aria2_running c (world s) = Ok false ->
  let cmd := build_cmd c exe (world s) in
  let mode := spawn_mode (world s) in
  start_aria2 (c, s) =
    match subprocess_Popen cmd mode (world s) with
    | (Raise e, w1) =>
        (Ok (false, ("Error starting Aria2: " ++ exn_msg e)%string),
         (c, MkSys w1 (events s ++ [EvPopen cmd mode])))
    | (Ok h, w1) =>
        let c1 := set_aria2_process (Some h) c in
        let s1 := MkSys (time_sleep 2 w1) (events s ++ [EvPopen cmd mode] ++ [EvSleep 2]) in
        match is_aria2_running c1 (time_sleep 2 w1) with
        | Ok true => (Ok (true, msg_started), (set_aria2_running true c1, s1))
        | Ok false => (Ok (false, msg_start_failed), (c1, s1))
        | Raise e =>
            (Ok (false, ("Error starting Aria2: " ++ exn_msg e)%string), (c1, s1))
        end
    end.
Proof.
  destruct s as [w ev]. intros Hx Ht Hp cmd mode. subst cmd mode.
  unfold start_aria2, start_body. run. rewrite Hx, Ht, Hp.
  destruct (subprocess_Popen (build_cmd c exe w) (spawn_mode w) w) as [[h|e] w1].
  - rewrite <- app_assoc.
    destruct (is_aria2_running (set_aria2_process (Some h) c) (time_sleep 2 w1))
      as [[|]|e]; reflexivity.
  - reflexivity.
Qed.

(** C1.  With an executable path at hand, the precondition of a start,
    and the probe reporting the daemon running, [start_aria2] answers
    "already running" and spawns nothing: the controller, the world and
    the request log are as before.  A call that answers "started" made
    exactly one [Popen] request, and a second call right after it answers
    "already running" and makes none. *)
Theorem start_aria2_already_running :
  (forall (c : Aria2Controller) (s : Sys W),
      truthy_opt (aria2_executable c) = true ->
      is_aria2_running c (world s) = Ok true ->
      start_aria2 (c, s) = (Ok (true, msg_already_running), (c, s))) /\
  (forall (c c1 : Aria2Controller) (s s1 : Sys W),
      start_aria2 (c, s) = (Ok (true, msg_started), (c1, s1)) ->
      (exists cmd mode, events s1 = events s ++ [EvPopen cmd mode; EvSleep 2]) /\
      start_aria2 (c1, s1) = (Ok (true, msg_already_running), (c1, s1))).
Proof.
  split.
  - intros c s Hx Hp. exact (start_aria2_run_already_running c s Hx Hp).
  - intros c c1 s s1 Hs.
    destruct (truthy_opt (aria2_executable c)) eqn:Hx.
    2:{ rewrite (start_aria2_run_no_executable c s Hx) in Hs. discriminate. }
    destruct (aria2_executable c) as [exe|] eqn:Hexe; [|discriminate].
    simpl in Hx.
    destruct (is_aria2_running c (world s)) as [[|]|e] eqn:Hp.
    + rewrite start_aria2_run_already_running in Hs by (rewrite ?Hexe; auto).
      discriminate.
    + rewrite (start_aria2_run_spawn c s Hexe Hx Hp) in Hs.
      cbv zeta in Hs.
      destruct (subprocess_Popen _ _ (world s)) as [[h|e] w1]; [|discriminate].
      destruct (is_aria2_running (set_aria2_process (Some h) c) (time_sleep 2 w1))
        as [[|]|e] eqn:Hp2; try discriminate.
      injection Hs as <- <-. split.
      * eexists _, _. reflexivity.
      * apply start_aria2_run_already_running.
        -- simpl. now rewrite Hexe.
        -- simpl. rewrite <- Hp2. now apply is_aria2_running_port_only.
    + unfold start_aria2 in Hs. run. rewrite Hexe, Hx, Hp in Hs. discriminate.
Qed.

(** *** The command line *)

Lemma build_cmd_with_conf (c : Aria2Controller) (exe cp : string) (w : W) :
  config_path c = Some cp -> PyStr.truthy cp = true -> os_path_exists w cp = true ->
  build_cmd c exe w = exe :: base_arguments c w ++ [("--conf-path=" ++ cp)%string].
Proof.
  intros Hc Ht He. unfold build_cmd, base_arguments, detach_flag.
  rewrite Hc, Ht, He. simpl.
  destruct (String.eqb (platform_system w) "Windows"); reflexivity.
Qed.

Lemma build_cmd_without_conf (c : Aria2Controller) (exe : string) (w : W) :
  match config_path c with
  | Some cp => (PyStr.truthy cp && os_path_exists w cp)%bool = false
  | None => True
  end ->
  build_cmd c exe w = exe :: base_arguments c w.
Proof.
  intros Hc. unfold build_cmd, base_arguments, detach_flag.
  destruct (config_path c) as [cp|]; [rewrite Hc|];
    destruct (String.eqb (platform_system w) "Windows"); reflexivity.
Qed.

(** The first request [start_aria2] makes when it decides to spawn. *)
Lemma start_aria2_first_request (c : Aria2Controller) (s : Sys W) (exe : string) :
  aria2_executable c = Some exe ->
  PyStr.truthy exe = true ->
  is_aria2_running c (world s) = Ok false ->
  exists rest,
    events (snd (snd (start_aria2 (c, s)))) =
      events s ++ EvPopen (build_cmd c exe (world s)) (spawn_mode (world s)) :: rest /\
    (rest = [] \/ rest = [EvSleep 2]).
Proof.
  intros Hx Ht Hp. rewrite (start_aria2_run_spawn c s Hx Ht Hp). cbv zeta.
  destruct (subprocess_Popen _ _ (world s)) as [[h|e] w1].
  - exists [EvSleep 2]. split; [|now right].
    destruct (is_aria2_running _ (time_sleep 2 w1)) as [[|]|e]; reflexivity.
  - exists []. split; [reflexivity | now left].
Qed.

(** C7, as amended.  When [start_aria2] spawns, the command handed to
    [Popen] is the executable followed by exactly [--enable-rpc],
    [--rpc-listen-port=<port>], [--rpc-secret=<secret>],
    [--rpc-allow-origin-all], [--rpc-listen-all=true] and the element of the
    platform test ([--daemon=true] off Windows), and [--conf-path=<path>] is
    appended exactly when [config_path] is a non-empty path that exists on
    the file system, not whenever it is set. *)
Theorem start_aria2_command_line (c : Aria2Controller) (s : Sys W) (exe : string) :
  aria2_executable c = Some exe ->
  PyStr.truthy exe = true ->
  is_aria2_running c (world s) = Ok false ->
  exists args rest,
    events (snd (snd (start_aria2 (c, s)))) =
      events s ++ EvPopen (exe :: args) (spawn_mode (world s)) :: rest /\
    (rest = [] \/ rest = [EvSleep 2]) /\
    (forall cp, config_path c = Some cp -> cp <> EmptyString ->
                os_path_exists (world s) cp = true ->
                args = base_arguments c (world s) ++ [("--conf-path=" ++ cp)%string]) /\
    (forall cp, config_path c = Some cp -> os_path_exists (world s) cp = false ->
                args = base_arguments c (world s)) /\
    (config_path c = Some EmptyString \/ config_path c = None ->
     args = base_arguments c (world s)).
Proof.
  intros Hx Ht Hp.
  destruct (start_aria2_first_request c s Hx Ht Hp) as (rest & Hev & Hrest).
  exists (tl (build_cmd c exe (world s))), rest.
  assert (Hcmd : exe :: tl (build_cmd c exe (world s)) = build_cmd c exe (world s)).
  { unfold build_cmd. destruct (config_path c) as [cp|]; [|reflexivity].
    destruct (PyStr.truthy cp && os_path_exists (world s) cp)%bool; reflexivity. }
  rewrite Hcmd. split; [exact Hev|]. split; [exact Hrest|].
  split; [|split].
  - intros cp Hc Hne He. rewrite (build_cmd_with_conf c exe (world s) Hc); auto.
    destruct cp; [contradiction | reflexivity].
  - intros cp Hc He. rewrite build_cmd_without_conf; [reflexivity|].
    rewrite Hc, He. apply andb_false_r.
  - intros [Hc | Hc]; (rewrite build_cmd_without_conf; [reflexivity|]);
      rewrite Hc; [reflexivity | exact I].
Qed.

(** C10. On Windows with no usable [config_path], the command handed to
    [Popen] ends with an empty string where the other platforms have
    [--daemon=true]. *)
Theorem start_aria2_windows_empty_argument
        (c : Aria2Controller) (s : Sys W) (exe : string) :
  platform_system (world s) = "Windows" ->
  config_path c = None ->
  aria2_executable c = Some exe ->
  PyStr.truthy exe = true ->
  is_aria2_running c (world s) = Ok false ->
  exists cmd rest,
    events (snd (snd (start_aria2 (c, s)))) =
      events s ++ EvPopen cmd DetachedNoWindow :: rest /\
    cmd = [ exe; "--enable-rpc";
            ("--rpc-listen-port=" ++ PyStr.of_int (port c))%string;
            ("--rpc-secret=" ++ rpc_secret c)%string;
            "--rpc-allow-origin-all"; "--rpc-listen-all=true"; EmptyString ] /\
    last cmd "--daemon=true" = EmptyString.
Proof.
  intros Hw Hc Hx Ht Hp.
  destruct (start_aria2_first_request c s Hx Ht Hp) as (rest & Hev & _).
  exists (build_cmd c exe (world s)), rest.
  assert (Hm : spawn_mode (world s) = DetachedNoWindow)
    by (unfold spawn_mode; now rewrite Hw).
  assert (Hb : build_cmd c exe (world s) =
               [ exe; "--enable-rpc";
                 ("--rpc-listen-port=" ++ PyStr.of_int (port c))%string;
                 ("--rpc-secret=" ++ rpc_secret c)%string;
                 "--rpc-allow-origin-all"; "--rpc-listen-all=true"; EmptyString ])
    by (unfold build_cmd, detach_flag; now rewrite Hc, Hw).
  rewrite <- Hm. split; [exact Hev|]. split; [exact Hb|].
  rewrite Hb. reflexivity.
Qed.

(** *** stop_aria2 *)

Lemma sweep_loop_quiet (procs : list Process) (w : W) (ev : list Event) :
  sweep_quiet procs w = true ->
  sweep_loop procs (MkSys w ev) =
    (Ok tt, MkSys (sweep_world procs w)
                  (ev ++ map EvProcTerminate (filter name_matches procs))).
Proof.
  revert w ev. induction procs as [|p rest IH]; intros w ev Hq; simpl in *.
  - now rewrite app_nil_r.
  - unfold sweep_one. destruct (name_matches p); run.
    + apply andb_true_iff in Hq as [Hp Hq].
      destruct (Process_terminate p w) as [[[]|e] w1]; simpl in *.
      * rewrite (IH _ _ Hq), <- app_assoc. reflexivity.
      * rewrite Hp, (IH _ _ Hq), <- app_assoc. reflexivity.
    + now rewrite (IH _ _ Hq).
Qed.

Lemma sweep_loop_abort (before after : list Process) (p : Process) (w w' : W)
      (ev : list Event) (e : exn) :
  sweep_quiet before w = true ->
  name_matches p = true ->
  Process_terminate p (sweep_world before w) = (Raise e, w') ->
  is_class NoSuchProcess e = false ->
  sweep_loop (before ++ p :: after) (MkSys w ev) =
    (Raise e, MkSys w' (ev ++ map EvProcTerminate (filter name_matches before)
                           ++ [EvProcTerminate p])).
Proof.
  revert w ev. induction before as [|q rest IH]; intros w ev Hq Hm Ht He; simpl in *.
  - unfold sweep_one. rewrite Hm. run. rewrite Ht, He. reflexivity.
  - unfold sweep_one. destruct (name_matches q); run.
    + apply andb_true_iff in Hq as [Hp Hq].
      destruct (Process_terminate q w) as [[[]|e'] w1]; simpl in *.
      * rewrite (IH _ _ Hq Hm Ht He), <- app_assoc. reflexivity.
      * rewrite Hp, (IH _ _ Hq Hm Ht He), <- app_assoc. reflexivity.
    + now rewrite (IH _ _ Hq Hm Ht He).
Qed.

(** A failure of the sweep other than [NoSuchProcess] ends [stop_aria2] at
    once: the processes after the failing one are not asked to terminate,
    nothing is waited for, nothing is probed again. *)
Lemma stop_aria2_sweep_abort
      (c : Aria2Controller) (s : Sys W) (before after : list Process)
      (p : Process) (w' : W) (e : exn) :
  is_aria2_running c (world s) = Ok true ->
  aria2_process c = None ->
  psutil_process_iter (world s) = (before ++ p :: after, None) ->
  sweep_quiet before (world s) = true ->
  name_matches p = true ->
  Process_terminate p (sweep_world before (world s)) = (Raise e, w') ->
  is_class NoSuchProcess e = false ->
  stop_aria2 (c, s) =
    (Ok (false, ("Error stopping Aria2: " ++ exn_msg e)%string),
     (c, MkSys w' (events s ++ map EvProcTerminate (filter name_matches before)
                            ++ [EvProcTerminate p]))).
Proof.
  destruct s as [w ev]. cbn [world events].
  intros Hup Hh Hit Hq Hm Ht He.
  unfold stop_aria2, stop_body, stop_owned, sweep. run.
  rewrite Hup. cbn [negb]. rewrite Hh. run. rewrite Hit. run.
  rewrite sweep_loop_abort with (w' := w') (e := e) by assumption. reflexivity.
Qed.

(** With the daemon detected and a live owned handle, [stop_aria2] asks
    the handle to terminate, waits with the five-second timeout and kills
    it when the wait times out; it then asks every process whose name
    matches to terminate; when no termination fails with anything but
    [NoSuchProcess] it waits one second, probes again and answers "failed
    to stop" exactly when the daemon is still detected, "stopped" (clearing
    the running flag) otherwise. *)
Lemma stop_aria2_owned_handle
        (c : Aria2Controller) (s : Sys W) (h : Handle) (w1 w2 w3 : W)
        (timed_out : bool) (m : string) (procs : list Process) (up : bool) :
  is_aria2_running c (world s) = Ok true ->
  aria2_process c = Some h ->
  Popen_poll h (world s) = None ->
  Popen_terminate h (world s) = (Ok tt, w1) ->
  Popen_wait h 5 w1 =
    (if timed_out then Raise (Exn TimeoutExpired m) else Ok tt, w2) ->
  (if timed_out then Popen_kill h w2 = (Ok tt, w3) else w3 = w2) ->
  psutil_process_iter w3 = (procs, None) ->
  sweep_quiet procs w3 = true ->
  is_aria2_running c (time_sleep 1 (sweep_world procs w3)) = Ok up ->
  stop_aria2 (c, s) =
    (Ok (if up then (false, msg_stop_failed) else (true, msg_stopped)),
     (if up then c else set_aria2_running false c,
      MkSys (time_sleep 1 (sweep_world procs w3))
            (events s ++ [EvTerminate h; EvWait h 5]
               ++ (if timed_out then [EvKill h] else [])
               ++ map EvProcTerminate (filter name_matches procs)
               ++ [EvSleep 1]))).
Proof.
  destruct s as [w ev]. cbn [world events].
  intros Hup Hh Hpoll Hterm Hwait Hkill Hit Hq Hup'.
  unfold stop_aria2, stop_body, stop_owned, sweep. run.
  rewrite Hup. cbn [negb]. rewrite Hh, Hpoll, Hterm, Hwait.
  assert (Hev : forall k : list Event,
             (if timed_out
              then ((ev ++ [EvTerminate h]) ++ [EvWait h 5]) ++ [EvKill h]
              else (ev ++ [EvTerminate h]) ++ [EvWait h 5]) ++ k =
             ev ++ [EvTerminate h; EvWait h 5]
                ++ (if timed_out then [EvKill h] else []) ++ k).
  { intros k. destruct timed_out; repeat rewrite <- app_assoc; reflexivity. }
  destruct timed_out.
  - unfold is_class. cbn [exn_cls exn_class_eqb]. rewrite Hkill. run.
    rewrite Hit. run. rewrite (sweep_loop_quiet _ _ _ Hq). run. rewrite Hup'.
    rewrite <- (Hev (map EvProcTerminate (filter name_matches procs) ++ [EvSleep 1])).
    rewrite <- !app_assoc. destruct up; reflexivity.
  - subst w3. run.
    rewrite Hit. run. rewrite (sweep_loop_quiet _ _ _ Hq). run. rewrite Hup'.
    rewrite <- (Hev (map EvProcTerminate (filter name_matches procs) ++ [EvSleep 1])).
    rewrite <- !app_assoc. destruct up; reflexivity.
Qed.

Lemma name_matches_false (q : Process) :
  info_name q <> Some "aria2c" -> info_name q <> Some "aria2c.exe" ->
  name_matches q = false.
Proof.
  intros H1 H2. unfold name_matches. destruct (info_name q) as [n|]; [|reflexivity].
  apply orb_false_iff. split; apply String.eqb_neq; congruence.
Qed.

Lemma name_matches_true (q : Process) :
  info_name q = Some "aria2c" \/ info_name q = Some "aria2c.exe" ->
  name_matches q = true.
Proof.
  intros [Hq | Hq]; unfold name_matches; rewrite Hq; reflexivity.
Qed.

(** Processes of other names are passed by. *)
Lemma sweep_others (procs : list Process) (w : W) :
  Forall (fun q => info_name q <> Some "aria2c" /\ info_name q <> Some "aria2c.exe")
         procs ->
  sweep_quiet procs w = true /\ sweep_world procs w = w /\
  filter name_matches procs = [].
Proof.
  induction 1 as [|q rest [H1 H2] _ IH]; simpl; [auto|].
  now rewrite (name_matches_false q H1 H2).
Qed.

(** The same failure, at any place of the sweep. *)
Lemma stop_aria2_owned_sweep_abort
      (c : Aria2Controller) (s : Sys W) (h : Handle) (w1 w2 w3 w' : W)
      (timed_out : bool) (m : string) (before after : list Process)
      (p : Process) (e : exn) :
  is_aria2_running c (world s) = Ok true ->
  aria2_process c = Some h ->
  Popen_poll h (world s) = None ->
  Popen_terminate h (world s) = (Ok tt, w1) ->
  Popen_wait h 5 w1 =
    (if timed_out then Raise (Exn TimeoutExpired m) else Ok tt, w2) ->
  (if timed_out then Popen_kill h w2 = (Ok tt, w3) else w3 = w2) ->
  psutil_process_iter w3 = (before ++ p :: after, None) ->
  sweep_quiet before w3 = true ->
  name_matches p = true ->
  Process_terminate p (sweep_world before w3) = (Raise e, w') ->
  is_class NoSuchProcess e = false ->
  stop_aria2 (c, s) =
    (Ok (false, ("Error stopping Aria2: " ++ exn_msg e)%string),
     (c, MkSys w'
           (events s ++ [EvTerminate h; EvWait h 5]
              ++ (if timed_out then [EvKill h] else [])
              ++ map EvProcTerminate (filter name_matches before)
              ++ [EvProcTerminate p]))).
Proof.
  destruct s as [w ev]. cbn [world events].
  intros Hup Hh Hpoll Hterm Hwait Hkill Hit Hq Hm Ht He.
  unfold stop_aria2, stop_body, stop_owned, sweep. run.
  rewrite Hup. cbn [negb]. rewrite Hh, Hpoll, Hterm, Hwait.
  destruct timed_out.
  - unfold is_class at 1. cbn [exn_cls exn_class_eqb]. rewrite Hkill. run.
    rewrite Hit. run.
    rewrite sweep_loop_abort with (w' := w') (e := e) by assumption.
    rewrite <- !app_assoc. reflexivity.
  - subst w3. run. rewrite Hit. run.
    rewrite sweep_loop_abort with (w' := w') (e := e) by assumption.
    rewrite <- !app_assoc. reflexivity.
Qed.

(** C5, where the code departs from it.  The handle is dealt with as the
    claim says: terminate, wait with the five-second timeout, kill when the
    wait times out.  The sweep that follows is not best-effort.  Of the
    failures of a termination only [NoSuchProcess] is passed over: when the
    termination of the first process called [aria2c] or [aria2c.exe]
    fails with anything else, a permission error for one, the sweep ends
    there.  The processes after it, daemons or not, are never asked to
    terminate, there is no settle wait and no second probe, and the answer
    is the error result, whether or not the daemon is still running. *)
Theorem stop_aria2_sweep_failure_not_ignored
        (c : Aria2Controller) (s : Sys W) (h : Handle) (w1 w2 w3 w' : W)
        (timed_out : bool) (m : string) (before after : list Process)
        (p : Process) (e : exn) :
  is_aria2_running c (world s) = Ok true ->
  aria2_process c = Some h ->
  Popen_poll h (world s) = None ->
  Popen_terminate h (world s) = (Ok tt, w1) ->
  Popen_wait h 5 w1 =
    (if timed_out then Raise (Exn TimeoutExpired m) else Ok tt, w2) ->
  (if timed_out then Popen_kill h w2 = (Ok tt, w3) else w3 = w2) ->
  psutil_process_iter w3 = (before ++ p :: after, None) ->
  Forall (fun q => info_name q <> Some "aria2c" /\ info_name q <> Some "aria2c.exe")
         before ->
  info_name p = Some "aria2c" \/ info_name p = Some "aria2c.exe" ->
  Process_terminate p w3 = (Raise e, w') ->
  exn_cls e <> NoSuchProcess ->
  stop_aria2 (c, s) =
    (Ok (false, ("Error stopping Aria2: " ++ exn_msg e)%string),
     (c, MkSys w'
           (events s ++ [EvTerminate h; EvWait h 5]
              ++ (if timed_out then [EvKill h] else [])
              ++ [EvProcTerminate p]))).
Proof.
  intros Hup Hh Hpoll Hterm Hwait Hkill Hit Hb Hp Ht He.
  destruct (sweep_others w3 Hb) as (Hq & Hw & Hf).
  assert (Hc : is_class NoSuchProcess e = false).
  { unfold is_class. destruct (exn_cls e); try reflexivity. congruence. }
  rewrite <- Hw in Ht.
  rewrite (@stop_aria2_owned_sweep_abort c s h w1 w2 w3 w' timed_out m before after
             p e Hup Hh Hpoll Hterm Hwait Hkill Hit Hq (name_matches_true p Hp) Ht Hc).
  rewrite Hf. reflexivity.
Qed.

End ControllerTheorems.

(** The four cases of the probe: everything denied; the sockets denied and
    a daemon in the process table; a listening socket; a quiet machine. *)
Example is_aria2_running_samples :
  let c := Sim.controller_at (Some "/usr/bin/aria2c") in
  (is_aria2_running c Sim.linux_denied, is_aria2_running c Sim.linux_denied_daemon,
   is_aria2_running c Sim.linux_listening, is_aria2_running c Sim.linux)
  = (Ok false, Ok true, Ok true, Ok false).
Proof. reflexivity. Qed.

Lemma is_aria2_running_best_effort_witness :
  psutil_net_connections Sim.linux_denied
    = Raise (Exn AccessDenied "psutil.AccessDenied") /\
  psutil_process_iter Sim.linux_denied = ([Proc 1 None; Proc 900 None], None) /\
  exists b : bool,
    is_aria2_running (Sim.controller_at (Some "/usr/bin/aria2c")) Sim.linux_denied
      = Ok b /\
    (b = true <->
     exists p, In p [Proc 1 None; Proc 900 None] /\
               (info_name p = Some "aria2c" \/ info_name p = Some "aria2c.exe")).
Proof.
  split; [reflexivity|]. split; [reflexivity|].
  exact (@is_aria2_running_best_effort Sim.World Sim.os
           (Sim.controller_at (Some "/usr/bin/aria2c")) Sim.linux_denied
           eq_refl (or_introl eq_refl)).
Defined.

Lemma stop_aria2_not_running_noop_witness :
  is_aria2_running (Sim.controller_at (Some "/usr/bin/aria2c")) (world (Sim.boot Sim.linux))
    = Ok false /\
  stop_aria2 (Sim.controller_at (Some "/usr/bin/aria2c"), Sim.boot Sim.linux)
    = (Ok (true, msg_not_running),
       (Sim.controller_at (Some "/usr/bin/aria2c"), Sim.boot Sim.linux)).
Proof.
  split.
  - reflexivity.
  - apply (@stop_aria2_not_running_noop Sim.World Sim.os
             (Sim.controller_at (Some "/usr/bin/aria2c")) (Sim.boot Sim.linux)).
    reflexivity.
Defined.

(** Without an executable path the precondition fails, and the answer is
    "executable not found" whatever the probe would say. *)
Example start_aria2_no_executable :
  start_aria2 (Sim.controller_at None, Sim.boot Sim.linux_foreign_daemon)
  = (Ok (false, msg_not_found),
     (Sim.controller_at None, Sim.boot Sim.linux_foreign_daemon)).
Proof. reflexivity. Qed.

Lemma start_aria2_already_running_witness :
  let c := Sim.controller_at (Some "/usr/bin/aria2c") in
  let st1 := snd (start_aria2 (c, Sim.boot Sim.linux)) in
  (is_aria2_running c (world (Sim.boot Sim.linux_listening)) = Ok true /\
   start_aria2 (c, Sim.boot Sim.linux_listening)
     = (Ok (true, msg_already_running), (c, Sim.boot Sim.linux_listening))) /\
  (start_aria2 (c, Sim.boot Sim.linux) = (Ok (true, msg_started), st1) /\
   start_aria2 st1 = (Ok (true, msg_already_running), st1) /\
   events (snd st1) =
     [ EvPopen [ "/usr/bin/aria2c"; "--enable-rpc"; "--rpc-listen-port=6800";
                 "--rpc-secret=my_secret"; "--rpc-allow-origin-all";
                 "--rpc-listen-all=true"; "--daemon=true" ] NewSessionDevNull;
       EvSleep 2 ]).
Proof.
  intros c st1.
  pose proof (@start_aria2_already_running Sim.World Sim.os) as [P1 P2].
  split.
  - split; [reflexivity|].
    exact (P1 c (Sim.boot Sim.linux_listening) eq_refl eq_refl).
  - destruct (P2 c (fst st1) (Sim.boot Sim.linux) (snd st1) eq_refl) as [_ E2].
    split; [reflexivity|]. split; [exact E2 | reflexivity].
Defined.

Example find_aria2_executable_samples :
  _find_aria2_executable Sim.linux = Ok (Some "/usr/bin/aria2c") /\
  _find_aria2_executable Sim.windows = Ok (Some "C:\tools\aria2c.exe") /\
  _find_aria2_executable Sim.linux_foreign_daemon = Ok None.
Proof. repeat split. Qed.

Lemma find_aria2_executable_priority_witness :
  (environ_PATH Sim.linux = Some "/usr/local/sbin:/usr/bin:/bin" /\
   exists r,
     _find_aria2_executable Sim.linux = Ok r /\
     match r with
     | Some p =>
         (exists before after,
             [ "/usr/bin/aria2c"; "/usr/local/bin/aria2c"; "/opt/homebrew/bin/aria2c";
               "/usr/local/sbin/aria2c"; "/usr/bin/aria2c"; "/bin/aria2c" ]
             = before ++ p :: after /\
             os_path_exists Sim.linux p = true /\
             Forall (fun q => os_path_exists Sim.linux q = false) before) /\
         (In p [ "/usr/bin/aria2c"; "/usr/local/bin/aria2c";
                 "/opt/homebrew/bin/aria2c" ] \/
          Forall (fun q => os_path_exists Sim.linux q = false)
                 [ "/usr/bin/aria2c"; "/usr/local/bin/aria2c";
                   "/opt/homebrew/bin/aria2c" ])
     | None =>
         Forall (fun q => os_path_exists Sim.linux q = false)
                [ "/usr/bin/aria2c"; "/usr/local/bin/aria2c"; "/opt/homebrew/bin/aria2c";
                  "/usr/local/sbin/aria2c"; "/usr/bin/aria2c"; "/bin/aria2c" ]
     end) /\
  (environ_PATH SimDesk.linux_no_path = None /\
   os_path_exists SimDesk.linux_no_path "/usr/bin/aria2c" = true /\
   _find_aria2_executable SimDesk.linux_no_path = Raise (Exn KeyError "'PATH'")).
Proof.
  split.
  - split; [reflexivity|].
    apply (proj1 (@find_aria2_executable_priority Sim.World Sim.os Sim.linux)
             ["/usr/local/sbin"; "/usr/bin"; "/bin"]).
    + discriminate.
    + repeat constructor; intros Hin; simpl in Hin;
        repeat (destruct Hin as [Hin | Hin]; [discriminate|]); exact Hin.
    + reflexivity.
  - split; [reflexivity|]. split; [reflexivity|].
    exact (proj2 (@find_aria2_executable_priority Sim.World Sim.os
                    SimDesk.linux_no_path) eq_refl).
Defined.

(** C7, as stated, fails: [config_path] is set, the file is not there, and
    the command has no [--conf-path] argument. *)
Lemma start_aria2_command_line_counterexample :
  config_path Sim.controller_with_conf = Some "/home/user/aria2.conf" /\
  os_path_exists Sim.linux "/home/user/aria2.conf" = false /\
  events (snd (snd (start_aria2 (Sim.controller_with_conf, Sim.boot Sim.linux)))) =
    [ EvPopen [ "/usr/bin/aria2c"; "--enable-rpc"; "--rpc-listen-port=6800";
                "--rpc-secret=my_secret"; "--rpc-allow-origin-all";
                "--rpc-listen-all=true"; "--daemon=true" ] NewSessionDevNull;
      EvSleep 2 ].
Proof. repeat split. Qed.

Lemma start_aria2_command_line_witness :
  is_aria2_running Sim.controller_with_conf Sim.linux_with_conf = Ok false /\
  exists args rest,
    events (snd (snd (start_aria2 (Sim.controller_with_conf,
                                   Sim.boot Sim.linux_with_conf)))) =
      EvPopen ("/usr/bin/aria2c" :: args) NewSessionDevNull :: rest /\
    args = [ "--enable-rpc"; "--rpc-listen-port=6800"; "--rpc-secret=my_secret";
             "--rpc-allow-origin-all"; "--rpc-listen-all=true"; "--daemon=true";
             "--conf-path=/home/user/aria2.conf" ].
Proof.
  split; [reflexivity|].
  destruct (@start_aria2_command_line Sim.World Sim.os
              Sim.controller_with_conf (Sim.boot Sim.linux_with_conf)
              "/usr/bin/aria2c" eq_refl eq_refl eq_refl)
    as (args & rest & Hev & _ & Hconf & _).
  exists args, rest. split; [exact Hev|].
  apply (Hconf "/home/user/aria2.conf"); [reflexivity | discriminate | reflexivity].
Defined.

Lemma start_aria2_windows_empty_argument_witness :
  platform_system Sim.windows = "Windows" /\
  exists cmd rest,
    events (snd (snd (start_aria2 (Sim.controller_at (Some "C:\tools\aria2c.exe"),
                                   Sim.boot Sim.windows)))) =
      EvPopen cmd DetachedNoWindow :: rest /\
    cmd = [ "C:\tools\aria2c.exe"; "--enable-rpc"; "--rpc-listen-port=6800";
            "--rpc-secret=my_secret"; "--rpc-allow-origin-all";
            "--rpc-listen-all=true"; EmptyString ] /\
    last cmd "--daemon=true" = EmptyString.
Proof.
  split; [reflexivity|].
  exact (@start_aria2_windows_empty_argument Sim.World Sim.os
           (Sim.controller_at (Some "C:\tools\aria2c.exe")) (Sim.boot Sim.windows)
           "C:\tools\aria2c.exe" eq_refl eq_refl eq_refl eq_refl eq_refl).
Defined.

(** The termination of pid 900 is denied, and the denial is not passed
    over: the stop ends with the error result; pid 901, whose name matches
    too, is never asked to terminate, and there is no settle wait and no
    second probe. *)
Lemma stop_aria2_sweep_failure_not_ignored_witness :
  let st := stop_aria2 (Sim.controller_owning, Sim.boot Sim.linux_shared) in
  is_aria2_running Sim.controller_owning Sim.linux_shared = Ok true /\
  Popen_poll 4242 Sim.linux_shared = None /\
  In (Proc 901 (Some "aria2c")) (fst (psutil_process_iter Sim.linux_shared)) /\
  fst st = Ok (false, "Error stopping Aria2: psutil.AccessDenied") /\
  events (snd (snd st)) =
    [ EvTerminate 4242; EvWait 4242 5; EvKill 4242;
      EvProcTerminate (Proc 900 (Some "aria2c")) ].
Proof.
  cbv zeta.
  split; [reflexivity|]. split; [reflexivity|]. split; [simpl; tauto|].
  rewrite (@stop_aria2_sweep_failure_not_ignored Sim.World Sim.os
             Sim.controller_owning (Sim.boot Sim.linux_shared) 4242
             Sim.linux_shared Sim.linux_shared
             (Sim.with_procs [Proc 1 (Some "systemd"); Proc 900 (Some "aria2c");
                              Proc 901 (Some "aria2c")] Sim.linux_shared)
             (Sim.with_procs [Proc 1 (Some "systemd"); Proc 900 (Some "aria2c");
                              Proc 901 (Some "aria2c")] Sim.linux_shared)
             true "timed out"
             [Proc 1 (Some "systemd")] [Proc 901 (Some "aria2c")]
             (Proc 900 (Some "aria2c")) (Exn AccessDenied "psutil.AccessDenied")
             eq_refl eq_refl eq_refl eq_refl eq_refl eq_refl eq_refl
             ltac:(repeat constructor; discriminate)
             (or_introl eq_refl) eq_refl ltac:(discriminate)).
  split; reflexivity.
Defined.

(** Where every daemon may be terminated the stop goes through. *)
Example stop_aria2_owned_sample :
  stop_aria2 (Sim.controller_owning, Sim.boot Sim.linux_owned) =
    (Ok (true, msg_stopped),
     (set_aria2_running false Sim.controller_owning,
      MkSys (Sim.with_procs [Proc 1 (Some "systemd")] Sim.linux_owned)
            [ EvTerminate 4242; EvWait 4242 5; EvKill 4242;
              EvProcTerminate (Proc 900 (Some "aria2c")); EvSleep 1 ])).
Proof. reflexivity. Qed.

Section ApplicationTheorems.

Context {W : Type} `{OS W} `{Interpreter}.

Ltac run :=
  cbv beta iota zeta
      delta [app set_app sys_of_app in_controller emit py_int zoom observe
             observe_raising act modify bind ret raise try_except get put
             fst snd world events] in *.

Lemma log_status_run (message : string) (a : App) (s : Sys W) :
  log_status message (a, s) =
    (Ok tt, (set_status_text (status_text a ++ [status_line (world s) message]) a, s)).
Proof. unfold log_status. run. reflexivity. Qed.

(** *** update_status *)

Lemma insert_rows_run (ds : list Download) (a : App) (s : Sys W) :
  insert_rows ds (a, s) =
    (Ok tt, (set_active_tree (active_tree a ++ map row_of ds) a, s)).
Proof.
  destruct a as [c cl u dp th sp ap rs rp st dt at_ sb pb thd].
  revert at_. induction ds as [|d rest IH]; intros at_; simpl.
  - unfold set_active_tree; simpl. now rewrite app_nil_r.
  - run. unfold set_active_tree at 1; simpl. rewrite IH.
    unfold set_active_tree; simpl. now rewrite <- app_assoc.
Qed.

(** C3, as amended.  [update_status] empties the task table before it
    asks the client for the downloads.  When that call fails the table is
    left empty and the exception leaves [update_status]; when it succeeds
    the table holds exactly the rows of the downloads returned, nothing of
    the old content; without a client the table is not touched. *)
Theorem update_status_active_tree (a : App) (s : Sys W) (up : bool) :
  is_aria2_running (controller a) (world s) = Ok up ->
  let st := update_status (a, s) in
  match aria2_client a with
  | None => fst st = Ok tt /\ active_tree (fst (snd st)) = active_tree a
  | Some cl =>
      match client_get_downloads cl (world s) with
      | (Ok ds, _) => fst st = Ok tt /\ active_tree (fst (snd st)) = map row_of ds
      | (Raise e, _) => fst st = Raise e /\ active_tree (fst (snd st)) = []
      end
  end.
Proof.
  intros Hup. destruct s as [w ev]. cbn [world] in *.
  unfold update_status. run. rewrite Hup.
  rewrite log_status_run. cbn [world].
  destruct (aria2_client a) as [cl|].
  - run. destruct (client_get_downloads cl w) as [[ds|e] w'].
    + rewrite insert_rows_run. split; reflexivity.
    + split; reflexivity.
  - split; reflexivity.
Qed.

(** *** start_download *)

Lemma submit_one_run (cl : Client) (options : Options) (url : string)
      (a : App) (s : Sys W) :
  fst (submit_one cl options url (a, s)) = Ok tt /\
  events (snd (snd (submit_one cl options url (a, s)))) =
    events s ++ (if not_blank url then [add_request options url] else []) /\
  aria2_client (fst (snd (submit_one cl options url (a, s)))) = aria2_client a.
Proof.
  destruct s as [w ev]. unfold submit_one, not_blank, add_to_download_list.
  destruct (PyStr.truthy (PyStr.strip url)).
  - run. destruct (client_add cl (route url) url options w) as [[d|e] w'].
    + rewrite log_status_run. repeat split.
    + unfold any_exception. rewrite log_status_run. repeat split.
  - run. cbn [events]. rewrite app_nil_r. repeat split.
Qed.

Lemma submit_all_run (cl : Client) (options : Options) (urls : list string)
      (a : App) (s : Sys W) :
  fst (submit_all cl options urls (a, s)) = Ok tt /\
  events (snd (snd (submit_all cl options urls (a, s)))) =
    events s ++ map (add_request options) (filter not_blank urls).
Proof.
  revert a s. induction urls as [|url rest IH]; intros a s.
  - simpl. run. now rewrite app_nil_r.
  - cbn [submit_all]. unfold bind.
    destruct (submit_one_run cl options url a s) as (Hr & Hev & _).
    destruct (submit_one cl options url (a, s)) as [r [a1 s1]].
    cbn [fst snd] in *. subst r.
    destruct (IH a1 s1) as [Hr' Hev']. split; [exact Hr'|].
    rewrite Hev', Hev. cbn [filter].
    destruct (not_blank url); cbn [map]; rewrite <- app_assoc; reflexivity.
Qed.



Lemma build_options_run (a : App) (st : App * Sys W) :
  build_options a st =
    (if PyStr.truthy (speed_limit_var a) then
       match PyStr.to_int (speed_limit_var a) with
       | Some n =>
           Ok (if 0 <? n
               then base_options a ++
                    [("max-download-limit", (speed_limit_var a ++ "K")%string)]
               else base_options a)
       | None => Raise value_error
       end
     else Ok (base_options a), st).
Proof.
  unfold build_options, base_options, value_error. run.
  destruct (PyStr.truthy (speed_limit_var a)); [|reflexivity].
  destruct (PyStr.to_int (speed_limit_var a)) as [n|]; [|reflexivity].
  destruct (0 <? n); reflexivity.
Qed.

(** What precedes the loop of [start_download]: the directory is created
    when it is missing, then the options are built. *)
Lemma start_download_run (a : App) (s : Sys W) (cl : Client) :
  aria2_client a = Some cl ->
  let urls := PyStr.splitlines (PyStr.strip (url_text a)) in
  let path := download_path_var a in
  no_urls urls = false ->
  start_download (a, s) =
    let prepared :=
      if os_path_exists (world s) path then (Ok tt, s)
      else let (r, w') := os_makedirs path (world s) in
           (r, MkSys w' (events s ++ [EvMakedirs path])) in
    match prepared with
    | (Ok _, s1) =>
        match fst (build_options a (a, s1)) with
        | Ok options => submit_all cl options urls (a, s1)
        | Raise e => (Raise e, (a, s1))
        end
    | (Raise e, s1) => (Raise e, (a, s1))
    end.
Proof.
  intros Hcl urls path Hurls. destruct s as [w ev]. cbn [world events].
  unfold start_download. run. rewrite Hcl. fold urls. rewrite Hurls.
  fold path. destruct (os_path_exists w path).
  - rewrite build_options_run. cbn [fst].
    destruct (PyStr.truthy (speed_limit_var a)); [|reflexivity].
    destruct (PyStr.to_int (speed_limit_var a)); reflexivity.
  - destruct (os_makedirs path w) as [[[]|e] w']; [|reflexivity].
    rewrite build_options_run. cbn [fst].
    destruct (PyStr.truthy (speed_limit_var a)); [|reflexivity].
    destruct (PyStr.to_int (speed_limit_var a)); reflexivity.
Qed.

(** The same with the directory at hand: it was there, or [os.makedirs]
    made it. *)
Lemma start_download_ready (a : App) (s : Sys W) (cl : Client) :
  aria2_client a = Some cl ->
  let urls := PyStr.splitlines (PyStr.strip (url_text a)) in
  let path := download_path_var a in
  no_urls urls = false ->
  (os_path_exists (world s) path = false ->
   fst (os_makedirs path (world s)) = Ok tt) ->
  let s1 :=
    if os_path_exists (world s) path then s
    else MkSys (snd (os_makedirs path (world s))) (events s ++ [EvMakedirs path]) in
  start_download (a, s) =
    match fst (build_options a (a, s)) with
    | Ok options => submit_all cl options urls (a, s1)
    | Raise e => (Raise e, (a, s1))
    end /\
  events s1 = events s ++ (if os_path_exists (world s) path then [] else [EvMakedirs path]).
Proof.
  intros Hcl urls path Hurls Hdir s1.
  rewrite (start_download_run a s Hcl Hurls). cbv zeta. fold path.
  assert (Hb : forall st, fst (build_options a st) = fst (build_options a (a, s)))
    by (intros st; now rewrite !build_options_run).
  unfold s1. destruct (os_path_exists (world s) path).
  - rewrite app_nil_r. split; reflexivity.
  - specialize (Hdir eq_refl).
    destruct (os_makedirs path (world s)) as [r w']. cbn [fst snd] in *.
    subst r. rewrite Hb. split; reflexivity.
Qed.


(** *** Input that is no number *)

Lemma start_aria2_service_bad_port (a : App) (s : Sys W) :
  PyStr.to_int (rpc_port_var a) = None ->
  start_aria2_service (a, s) =
    (Raise value_error,
     (set_controller
        (set_rpc_secret (rpc_secret_var a)
           (set_aria2_executable (Some (aria2_path_var a)) (controller a))) a,
      s)).
Proof.
  intros Hp. unfold start_aria2_service. run. rewrite Hp.
  destruct a; reflexivity.
Qed.

Lemma start_download_no_urls (a : App) (s : Sys W) (cl : Client) :
  aria2_client a = Some cl ->
  no_urls (PyStr.splitlines (PyStr.strip (url_text a))) = true ->
  start_download (a, s) =
    (Ok tt, (a, MkSys (world s) (events s ++ [EvShowWarning "警告" "请输入下载链接"]))).
Proof.
  intros Hcl Hu. unfold start_download. run. rewrite Hcl, Hu. run.
  destruct s; reflexivity.
Qed.

(** C9, as amended.  The only input rejected before dispatch is an empty
    link list: a warning box and no request.  A port text that [int()]
    does not accept makes [start_aria2_service] raise [ValueError] before
    the controller is started, the system untouched; a non-empty rate limit
    that [int()] does not accept makes [start_download] raise [ValueError]
    once the download directory is at hand (it was there, or has just been
    created) and before any link is submitted; the thread count is not
    looked at and travels verbatim in the [split] and
    [max-connection-per-server] options. *)
Theorem input_validation (a : App) (s : Sys W) (cl : Client) :
  (PyStr.to_int (rpc_port_var a) = None ->
   fst (start_aria2_service (a, s)) = Raise value_error /\
   snd (snd (start_aria2_service (a, s))) = s) /\
  (aria2_client a = Some cl ->
   no_urls (PyStr.splitlines (PyStr.strip (url_text a))) = true ->
   start_download (a, s) =
     (Ok tt, (a, MkSys (world s) (events s ++ [EvShowWarning "警告" "请输入下载链接"])))) /\
  (aria2_client a = Some cl ->
   no_urls (PyStr.splitlines (PyStr.strip (url_text a))) = false ->
   let path := download_path_var a in
   let present := os_path_exists (world s) path in
   (present = false -> fst (os_makedirs path (world s)) = Ok tt) ->
   PyStr.truthy (speed_limit_var a) = true ->
   PyStr.to_int (speed_limit_var a) = None ->
   fst (start_download (a, s)) = Raise value_error /\
   fst (snd (start_download (a, s))) = a /\
   events (snd (snd (start_download (a, s)))) =
     events s ++ (if present then [] else [EvMakedirs path])) /\
  (forall (options : Options) (st : App * Sys W),
      fst (build_options a st) = Ok options ->
      In ("split", threads_var a) options /\
      In ("max-connection-per-server", threads_var a) options).
Proof.
  split; [|split; [|split]].
  - intros Hp. rewrite (start_aria2_service_bad_port a s Hp). split; reflexivity.
  - apply start_download_no_urls.
  - intros Hcl Hu path present Hdir Ht Hi.
    destruct (start_download_ready a s Hcl Hu Hdir) as [Hst Hs1].
    fold path present in Hst, Hs1.
    rewrite build_options_run, Ht, Hi in Hst. cbn [fst] in Hst.
    rewrite Hst. cbn [fst snd]. repeat split. exact Hs1.
  - intros options st. rewrite build_options_run. cbn [fst].
    destruct (PyStr.truthy (speed_limit_var a)).
    + destruct (PyStr.to_int (speed_limit_var a)) as [n|]; [|discriminate].
      intros [= <-]. destruct (0 <? n); simpl; auto.
    + intros [= <-]. simpl. auto.
Qed.

End ApplicationTheorems.

(** C3, as stated, fails: the table shows two tasks, the endpoint does not
    answer, and after the refresh the table is empty; the failure of the
    call also leaves [update_status] as an exception. *)
Lemma update_status_active_tree_counterexample :
  let st := update_status (Sim.busy_app, Sim.boot Sim.linux_rpc_down) in
  length (active_tree Sim.busy_app) = 2%nat /\
  fst (client_get_downloads Sim.local_client Sim.linux_rpc_down)
    = Raise (Exn ClientException "Connection refused") /\
  fst st = Raise (Exn ClientException "Connection refused") /\
  active_tree (fst (snd st)) = [] /\
  active_tree (fst (snd st)) <> active_tree Sim.busy_app.
Proof. cbv zeta. repeat split. discriminate. Qed.

Lemma update_status_active_tree_witness :
  is_aria2_running (controller Sim.busy_app) Sim.linux_rpc_down = Ok true /\
  fst (update_status (Sim.busy_app, Sim.boot Sim.linux_rpc_down))
    = Raise (Exn ClientException "Connection refused") /\
  active_tree (fst (snd (update_status (Sim.busy_app, Sim.boot Sim.linux_rpc_down)))) = [].
Proof.
  split; [reflexivity|].
  exact (@update_status_active_tree Sim.World Sim.os
           Sim.busy_app (Sim.boot Sim.linux_rpc_down) true eq_refl).
Defined.

(** A refresh that succeeds replaces the two old rows by the one row of the
    download reported. *)
Example update_status_replaces :
  active_tree (fst (snd (update_status (Sim.busy_app, Sim.boot Sim.linux_rpc_up))))
  = [MkRow "2089b05ecca3d829" "y.iso" "active" "0.0%" "0.0 KB/s" "0.0 MB"].
Proof. reflexivity. Qed.


(** A link to a torrent file takes the third way. *)
Example route_samples :
  route "magnet:?xt=urn:btih:ABC" = add_magnet /\
  route "http://x/y.iso" = add_uris /\
  route "http://x/y.torrent" = add_torrent /\
  route " magnet:?xt=urn:btih:ABC" = add_uris.
Proof. repeat split. Qed.

(** C9, as stated, fails: with the port entry reading [abc] the request to
    start the service ends in an uncaught [ValueError]; so does an enqueue
    with the rate limit reading [fast]; and a thread count reading [many] is
    not rejected but sent to the daemon as it is. *)
Lemma input_validation_counterexample :
  fst (start_aria2_service (Sim.with_port_text "abc" Sim.fresh_app, Sim.boot Sim.linux))
    = Raise value_error /\
  fst (start_download (Sim.with_speed_limit_text "fast" Sim.busy_app,
                       Sim.boot Sim.linux_rpc_up))
    = Raise value_error /\
  events (snd (snd (start_download (Sim.with_threads_text "many" Sim.busy_app,
                                    Sim.boot Sim.linux_rpc_up)))) =
    [ EvRpcAdd add_magnet "magnet:?xt=urn:btih:ABC"
        [("dir", "/tmp/dl"); ("split", "many"); ("max-connection-per-server", "many")];
      EvRpcAdd add_uris "http://x/y.iso"
        [("dir", "/tmp/dl"); ("split", "many"); ("max-connection-per-server", "many")] ].
Proof. repeat split. Qed.

Lemma input_validation_witness :
  (PyStr.to_int (rpc_port_var (Sim.with_port_text "abc" Sim.fresh_app)) = None /\
   fst (start_aria2_service (Sim.with_port_text "abc" Sim.fresh_app, Sim.boot Sim.linux))
     = Raise value_error /\
   snd (snd (start_aria2_service (Sim.with_port_text "abc" Sim.fresh_app,
                                  Sim.boot Sim.linux)))
     = Sim.boot Sim.linux) /\
  (start_download (Sim.with_url_text "  " Sim.busy_app, Sim.boot Sim.linux_rpc_up) =
     (Ok tt, (Sim.with_url_text "  " Sim.busy_app,
              MkSys Sim.linux_rpc_up [EvShowWarning "警告" "请输入下载链接"]))) /\
  (fst (start_download (Sim.with_speed_limit_text "fast" Sim.busy_app,
                        Sim.boot Sim.linux_rpc_up))
     = Raise value_error /\
   fst (snd (start_download (Sim.with_speed_limit_text "fast" Sim.busy_app,
                             Sim.boot Sim.linux_rpc_up)))
     = Sim.with_speed_limit_text "fast" Sim.busy_app /\
   events (snd (snd (start_download (Sim.with_speed_limit_text "fast" Sim.busy_app,
                                     Sim.boot Sim.linux_rpc_up)))) = []) /\
  (fst (start_download (Sim.with_speed_limit_text "fast" Sim.busy_app,
                        Sim.boot Sim.linux))
     = Raise value_error /\
   fst (snd (start_download (Sim.with_speed_limit_text "fast" Sim.busy_app,
                             Sim.boot Sim.linux)))
     = Sim.with_speed_limit_text "fast" Sim.busy_app /\
   events (snd (snd (start_download (Sim.with_speed_limit_text "fast" Sim.busy_app,
                                     Sim.boot Sim.linux)))) = [EvMakedirs "/tmp/dl"]) /\
  In ("split", "many")
     [("dir", "/tmp/dl"); ("split", "many"); ("max-connection-per-server", "many")].
Proof.
  split; [|split; [|split; [|split]]].
  - split; [reflexivity|].
    exact (proj1 (@input_validation Sim.World Sim.os Sim.interpreter
                    (Sim.with_port_text "abc" Sim.fresh_app) (Sim.boot Sim.linux)
                    Sim.local_client) eq_refl).
  - exact (proj1 (proj2 (@input_validation Sim.World Sim.os Sim.interpreter
                    (Sim.with_url_text "  " Sim.busy_app) (Sim.boot Sim.linux_rpc_up)
                    Sim.local_client)) eq_refl eq_refl).
  - exact (proj1 (proj2 (proj2 (@input_validation Sim.World Sim.os Sim.interpreter
                    (Sim.with_speed_limit_text "fast" Sim.busy_app)
                    (Sim.boot Sim.linux_rpc_up) Sim.local_client)))
             eq_refl eq_refl (fun _ => eq_refl) eq_refl eq_refl).
  - exact (proj1 (proj2 (proj2 (@input_validation Sim.World Sim.os Sim.interpreter
                    (Sim.with_speed_limit_text "fast" Sim.busy_app)
                    (Sim.boot Sim.linux) Sim.local_client)))
             eq_refl eq_refl (fun _ => eq_refl) eq_refl eq_refl).
  - exact (proj1 (proj2 (proj2 (proj2 (@input_validation Sim.World Sim.os Sim.interpreter
                    (Sim.with_threads_text "many" Sim.busy_app)
                    (Sim.boot Sim.linux_rpc_up) Sim.local_client)))
                  [("dir", "/tmp/dl"); ("split", "many"); ("max-connection-per-server", "many")]
                  (Sim.with_threads_text "many" Sim.busy_app, Sim.boot Sim.linux_rpc_up)
                  eq_refl)).
Defined.

(** * Further properties of the controller *)

Section ControllerMore.

Context {W : Type} `{OS W}.

Ltac run :=
  cbv beta iota zeta
      delta [probe self set_self in_sys zoom observe observe_raising act
             modify bind ret raise try_except get put fst snd world events] in *.

(** [stop_aria2], case by case. *)
Lemma stop_aria2_structure (c : Aria2Controller) (s : Sys W) :
  stop_aria2 (c, s) =
    match is_aria2_running c (world s) with
    | Raise e => (Raise e, (c, s))
    | Ok false => (Ok (true, msg_not_running), (c, s))
    | Ok true =>
        match stop_owned c s with
        | (Raise e, s1) =>
            (Ok (false, ("Error stopping Aria2: " ++ exn_msg e)%string), (c, s1))
        | (Ok _, s1) =>
            match sweep s1 with
            | (Raise e, s2) =>
                (Ok (false, ("Error stopping Aria2: " ++ exn_msg e)%string), (c, s2))
            | (Ok _, s2) =>
                let s3 := MkSys (time_sleep 1 (world s2)) (events s2 ++ [EvSleep 1]) in
                match is_aria2_running c (world s3) with
                | Ok false => (Ok (true, msg_stopped), (set_aria2_running false c, s3))
                | Ok true => (Ok (false, msg_stop_failed), (c, s3))
                | Raise e =>
                    (Ok (false, ("Error stopping Aria2: " ++ exn_msg e)%string), (c, s3))
                end
            end
        end
    end.
Proof.
  destruct s as [w ev]. unfold stop_aria2, stop_body. run.
  destruct (is_aria2_running c w) as [[|]|e]; cbn [negb]; try reflexivity.
  destruct (stop_owned c {| world := w; events := ev |}) as [[[]|e] s1];
    [|reflexivity].
  destruct (sweep s1) as [[[]|e] [w2 ev2]]; [|reflexivity].
  destruct (is_aria2_running c (time_sleep 1 w2)) as [[|]|e]; reflexivity.
Qed.

(** X1.  With the search-path variable unset the locator checks nothing:
    [os.environ] raises [KeyError] before the first well-known place is
    looked at, whatever exists on the file system, and the constructor of
    the controller ends with that exception. *)
Theorem find_aria2_executable_path_unset
        (w : W) (secret : string) (p : Z) (conf : option string) :
  environ_PATH w = None ->
  _find_aria2_executable w = Raise (Exn KeyError "'PATH'") /\
  Aria2Controller_init secret p conf w = Raise (Exn KeyError "'PATH'").
Proof.
  intros Hp. unfold Aria2Controller_init, _find_aria2_executable, possible_paths.
  rewrite Hp. destruct (String.eqb (platform_system w) "Windows"); auto.
Qed.

(** X2.  [start_aria2] raises exactly when the executable attribute is
    non-empty and the first probe raises, and then with the probe's
    exception and nothing changed; a failure of [Popen] or of the second
    probe never leaves it as an exception. *)
Theorem start_aria2_raises_iff (c : Aria2Controller) (s : Sys W) (e : exn) :
  fst (start_aria2 (c, s)) = Raise e <->
  truthy_opt (aria2_executable c) = true /\ is_aria2_running c (world s) = Raise e.
Proof.
  destruct (truthy_opt (aria2_executable c)) eqn:Hx.
  - destruct (aria2_executable c) as [exe|] eqn:Hexe; [|discriminate].
    simpl in Hx.
    destruct (is_aria2_running c (world s)) as [[|]|e'] eqn:Hp.
    + rewrite start_aria2_run_already_running by (rewrite ?Hexe; auto).
      split; [discriminate | intros [_ ?]; discriminate].
    + rewrite (start_aria2_run_spawn c s Hexe Hx Hp). cbv zeta.
      split; [|intros [_ ?]; discriminate].
      destruct (subprocess_Popen _ _ (world s)) as [[h|e1] w1]; [|discriminate].
      destruct (is_aria2_running _ (time_sleep 2 w1)) as [[|]|e2]; discriminate.
    + unfold start_aria2. run. rewrite Hexe, Hx, Hp. cbn [fst].
      split; [intros [= <-]; auto | intros [_ [= <-]]; reflexivity].
  - rewrite (start_aria2_run_no_executable c s Hx).
    split; [discriminate | intros [? _]; discriminate].
Qed.

(** X3.  Whenever [start_aria2] reports success the daemon is detected in
    the state it leaves: the message is "already running", with the
    controller untouched (the running flag is not set), or "started", with
    the handle kept and the running flag set. *)
Theorem start_aria2_success_detected
        (c c' : Aria2Controller) (s s' : Sys W) (m : string) :
  start_aria2 (c, s) = (Ok (true, m), (c', s')) ->
  is_aria2_running c' (world s') = Ok true /\
  ((m = msg_already_running /\ c' = c /\ s' = s) \/
   (m = msg_started /\ aria2_running c' = true /\
    exists h, aria2_process c' = Some h)).
Proof.
  intros Hs.
  destruct (truthy_opt (aria2_executable c)) eqn:Hx.
  2:{ rewrite (start_aria2_run_no_executable c s Hx) in Hs. discriminate. }
  destruct (aria2_executable c) as [exe|] eqn:Hexe; [|discriminate].
  simpl in Hx.
  destruct (is_aria2_running c (world s)) as [[|]|e] eqn:Hp.
  - rewrite start_aria2_run_already_running in Hs by (rewrite ?Hexe; auto).
    inversion Hs; subst. split; [exact Hp | left; auto].
  - rewrite (start_aria2_run_spawn c s Hexe Hx Hp) in Hs. cbv zeta in Hs.
    destruct (subprocess_Popen _ _ (world s)) as [[h|e] w1]; [|discriminate].
    destruct (is_aria2_running (set_aria2_process (Some h) c) (time_sleep 2 w1))
      as [[|]|e] eqn:Hp2; try discriminate.
    inversion Hs; subst. split.
    + simpl. rewrite <- Hp2. now apply is_aria2_running_port_only.
    + right. split; [reflexivity|]. split; [reflexivity|]. now exists h.
  - unfold start_aria2 in Hs. run. rewrite Hexe, Hx, Hp in Hs. discriminate.
Qed.

(** X4.  Whenever [stop_aria2] reports success the daemon is not detected
    in the state it leaves: the message is "not running", with nothing
    changed, or "stopped", with the running flag cleared. *)
Theorem stop_aria2_success_not_detected
        (c c' : Aria2Controller) (s s' : Sys W) (m : string) :
  stop_aria2 (c, s) = (Ok (true, m), (c', s')) ->
  is_aria2_running c' (world s') = Ok false /\
  ((m = msg_not_running /\ c' = c /\ s' = s) \/
   (m = msg_stopped /\ aria2_running c' = false)).
Proof.
  rewrite stop_aria2_structure.
  destruct (is_aria2_running c (world s)) as [[|]|e] eqn:Hp; try discriminate.
  - destruct (stop_owned c s) as [[[]|e] s1]; [|discriminate].
    destruct (sweep s1) as [[[]|e] s2]; [|discriminate]. cbv zeta. cbn [world].
    destruct (is_aria2_running c (time_sleep 1 (world s2))) as [[|]|e] eqn:Hp2;
      try discriminate.
    intros Hs; inversion Hs; subst. split; [|right; auto].
    rewrite <- Hp2. now apply is_aria2_running_port_only.
  - intros Hs; inversion Hs; subst. split; [exact Hp | left; auto].
Qed.

(** X5.  [stop_aria2] raises exactly when its first probe raises, and then
    with the probe's exception and nothing changed; every later failure
    is answered with a failure result. *)
Theorem stop_aria2_raises_iff (c : Aria2Controller) (s : Sys W) (e : exn) :
  fst (stop_aria2 (c, s)) = Raise e <-> is_aria2_running c (world s) = Raise e.
Proof.
  rewrite stop_aria2_structure.
  destruct (is_aria2_running c (world s)) as [[|]|e'] eqn:Hp.
  - split; [|discriminate].
    destruct (stop_owned c s) as [[[]|e1] s1]; [|discriminate].
    destruct (sweep s1) as [[[]|e2] s2]; [|discriminate]. cbv zeta. cbn [world].
    destruct (is_aria2_running c (time_sleep 1 (world s2))) as [[|]|e3]; discriminate.
  - split; discriminate.
  - cbn [fst]. split; intros [= <-]; reflexivity.
Qed.

(** *** What [stop_aria2] asks for *)

Lemma stop_owned_requests (c : Aria2Controller) (s : Sys W) :
  exists evs,
    events (snd (stop_owned c s)) = events s ++ evs /\ Forall (stop_request c) evs.
Proof.
  destruct s as [w ev]. unfold stop_owned.
  destruct (aria2_process c) as [h|] eqn:Hh.
  2:{ exists []. run. now rewrite app_nil_r. }
  run. destruct (Popen_poll h w).
  { exists []. now rewrite app_nil_r. }
  destruct (Popen_terminate h w) as [[[]|e] w1].
  2:{ exists [EvTerminate h]. split; [reflexivity|]. repeat constructor. exact Hh. }
  destruct (Popen_wait h 5 w1) as [[[]|e] w2].
  { exists [EvTerminate h; EvWait h 5]. rewrite <- app_assoc.
    split; [reflexivity|]. repeat constructor; simpl; auto. }
  destruct (is_class TimeoutExpired e).
  - destruct (Popen_kill h w2) as [r w3].
    exists [EvTerminate h; EvWait h 5; EvKill h]. rewrite <- !app_assoc.
    split; [reflexivity|]. repeat constructor; simpl; auto.
  - exists [EvTerminate h; EvWait h 5]. rewrite <- app_assoc.
    split; [reflexivity|]. repeat constructor; simpl; auto.
Qed.

Lemma sweep_loop_requests (c : Aria2Controller) (procs : list Process) (s : Sys W) :
  exists evs,
    events (snd (sweep_loop procs s)) = events s ++ evs /\
    Forall (stop_request c) evs.
Proof.
  revert s. induction procs as [|p rest IH]; intros [w ev].
  - exists []. simpl. now rewrite app_nil_r.
  - cbn [sweep_loop]. unfold sweep_one. destruct (name_matches p) eqn:Hm.
    + run. destruct (Process_terminate p w) as [[[]|e] w1].
      * destruct (IH (MkSys w1 (ev ++ [EvProcTerminate p]))) as (evs & Hev & Hall).
        exists (EvProcTerminate p :: evs). cbn [events] in *.
        rewrite Hev, <- app_assoc. split; [reflexivity|].
        constructor; [exact Hm | exact Hall].
      * destruct (is_class NoSuchProcess e).
        -- destruct (IH (MkSys w1 (ev ++ [EvProcTerminate p]))) as (evs & Hev & Hall).
           exists (EvProcTerminate p :: evs). cbn [events] in *.
           rewrite Hev, <- app_assoc. split; [reflexivity|].
           constructor; [exact Hm | exact Hall].
        -- exists [EvProcTerminate p]. split; [reflexivity|].
           constructor; [exact Hm | constructor].
    + run. exact (IH (MkSys w ev)).
Qed.

Lemma sweep_requests (c : Aria2Controller) (s : Sys W) :
  exists evs,
    events (snd (sweep s)) = events s ++ evs /\ Forall (stop_request c) evs.
Proof.
  destruct (sweep_loop_requests c (fst (psutil_process_iter (world s))) s)
    as (evs & Hev & Hall).
  exists evs. split; [|exact Hall]. rewrite <- Hev.
  unfold sweep. run.
  destruct (sweep_loop _ s) as [[[]|e] s1]; [|reflexivity].
  destruct (let (_, y) := psutil_process_iter _ in y); reflexivity.
Qed.

(** X6.  Whatever happens, the requests one call of [stop_aria2] makes are
    of four kinds only: terminate, wait (five seconds) and kill on the
    handle the controller holds, terminate on a process named [aria2c] or
    [aria2c.exe], and the one-second wait.  It never spawns and never asks
    a process of another name to terminate. *)
Theorem stop_aria2_requests (c : Aria2Controller) (s : Sys W) :
  exists evs,
    events (snd (snd (stop_aria2 (c, s)))) = events s ++ evs /\
    Forall (stop_request c) evs.
Proof.
  rewrite stop_aria2_structure.
  destruct (is_aria2_running c (world s)) as [[|]|e];
    try (exists []; cbn [snd]; rewrite app_nil_r; split; [reflexivity | constructor]).
  destruct (stop_owned_requests c s) as (ev1 & H1 & A1).
  destruct (stop_owned c s) as [[[]|e] s1]; cbn [snd] in H1.
  2:{ exists ev1. auto. }
  destruct (sweep_requests c s1) as (ev2 & H2 & A2).
  destruct (sweep s1) as [[[]|e] s2]; cbn [snd] in H2.
  2:{ exists (ev1 ++ ev2). cbn [snd]. rewrite H2, H1, <- app_assoc.
      split; [reflexivity | now apply Forall_app]. }
  cbv zeta. cbn [world].
  exists (ev1 ++ ev2 ++ [EvSleep 1]).
  assert (Hall : Forall (stop_request c) (ev1 ++ ev2 ++ [EvSleep 1])).
  { apply Forall_app. split; [exact A1|]. apply Forall_app. split; [exact A2|].
    repeat constructor. }
  split; [|exact Hall].
  destruct (is_aria2_running c (time_sleep 1 (world s2))) as [[|]|e];
    cbn [snd events]; rewrite H2, H1, <- !app_assoc; reflexivity.
Qed.

(** X7.  Neither [start_aria2] nor [stop_aria2] changes the secret, the
    port, the configuration path or the executable of the controller, and
    [stop_aria2] keeps the handle: a stopped controller still holds the
    [Popen] object of the process it once started. *)
Theorem start_stop_keep_configuration (c : Aria2Controller) (s : Sys W) :
  let c1 := fst (snd (start_aria2 (c, s))) in
  let c2 := fst (snd (stop_aria2 (c, s))) in
  (rpc_secret c1 = rpc_secret c /\ port c1 = port c /\
   config_path c1 = config_path c /\ aria2_executable c1 = aria2_executable c) /\
  (rpc_secret c2 = rpc_secret c /\ port c2 = port c /\
   config_path c2 = config_path c /\ aria2_executable c2 = aria2_executable c /\
   aria2_process c2 = aria2_process c).
Proof.
  cbv zeta. split.
  - destruct (truthy_opt (aria2_executable c)) eqn:Hx.
    2:{ rewrite (start_aria2_run_no_executable c s Hx). auto. }
    destruct (aria2_executable c) as [exe|] eqn:Hexe; [|discriminate].
    simpl in Hx.
    destruct (is_aria2_running c (world s)) as [[|]|e] eqn:Hp.
    + rewrite start_aria2_run_already_running by (rewrite ?Hexe; auto).
      cbn [fst snd]. auto.
    + rewrite (start_aria2_run_spawn c s Hexe Hx Hp). cbv zeta.
      destruct (subprocess_Popen _ _ (world s)) as [[h|e] w1]; [|cbn; auto].
      destruct (is_aria2_running _ (time_sleep 2 w1)) as [[|]|e]; cbn; auto.
    + unfold start_aria2. run. rewrite Hexe, Hx, Hp. cbn. auto.
  - rewrite stop_aria2_structure.
    destruct (is_aria2_running c (world s)) as [[|]|e]; try (cbn; tauto).
    destruct (stop_owned c s) as [[[]|e] s1]; [|cbn; tauto].
    destruct (sweep s1) as [[[]|e] s2]; [|cbn; tauto]. cbv zeta. cbn [world].
    destruct (is_aria2_running c (time_sleep 1 (world s2))) as [[|]|e]; cbn; tauto.
Qed.

End ControllerMore.

(** * Further properties of the window *)

Section ApplicationMore.

Context {W : Type} `{OS W} `{Interpreter}.

Ltac run :=
  cbv beta iota zeta
      delta [app set_app sys_of_app in_controller emit py_int zoom observe
             observe_raising act modify bind ret raise try_except get put
             fst snd world events] in *.

(** Reduces the reads of attributes just assigned. *)
Ltac fields :=
  cbn [controller aria2_client url_text download_path_var threads_var
       speed_limit_var aria2_path_var rpc_secret_var rpc_port_var status_text
       download_tree active_tree start_button_normal stop_button_normal
       status_thread set_controller set_aria2_client set_status_text
       set_download_tree set_active_tree set_buttons set_status_thread
       rpc_secret port config_path aria2_process aria2_executable aria2_running
       set_aria2_process set_aria2_running set_aria2_executable set_rpc_secret
       set_port] in *.

(** X8.  With the path entry empty, [start_aria2_service] overwrites the
    executable the locator found with the empty string before it calls
    [start_aria2]: the answer is "executable not found" whatever is
    installed and whether or not a daemon runs; nothing is requested from
    the outside, the client and the buttons stay as they were. *)
Theorem start_aria2_service_empty_path (a : App) (s : Sys W) (p : Z) :
  aria2_path_var a = EmptyString ->
  PyStr.to_int (rpc_port_var a) = Some p ->
  start_aria2_service (a, s) =
    (Ok tt,
     (set_status_text (status_text a ++ [status_line (world s) msg_not_found])
        (set_controller
           (set_port p
              (set_rpc_secret (rpc_secret_var a)
                 (set_aria2_executable (Some EmptyString) (controller a))))
           a),
      s)).
Proof.
  intros Hpath Hport. destruct s as [w ev].
  unfold start_aria2_service. run. rewrite Hport, Hpath.
  rewrite start_aria2_run_no_executable by reflexivity.
  rewrite log_status_run. destruct a; reflexivity.
Qed.

Lemma connect_to_aria2_run (a : App) (s : Sys W) :
  connect_to_aria2 (a, s) =
    match aria2p_API "http://localhost" (port (controller a))
                     (rpc_secret (controller a)) (world s) with
    | Ok cl =>
        (Ok true,
         (set_status_text
            (status_text a ++ [status_line (world s) "成功连接到Aria2 RPC服务"])
            (set_aria2_client (Some cl) a), s))
    | Raise e =>
        (Ok false,
         (set_status_text
            (status_text a ++
               [status_line (world s) ("连接Aria2 RPC服务失败: " ++ exn_msg e)%string])
            a, s))
    end.
Proof.
  destruct s as [w ev]. unfold connect_to_aria2. run.
  destruct (aria2p_API "http://localhost" (port (controller a))
                       (rpc_secret (controller a)) w) as [cl|e].
  - rewrite log_status_run. reflexivity.
  - unfold any_exception. rewrite log_status_run. reflexivity.
Qed.

(** X9.  [connect_to_aria2] never raises and makes no request: a client
    that cannot be constructed is answered with [False] and one line in
    the status box, and the client the window held before stays in
    place; on success the new client replaces it. *)
Theorem connect_to_aria2_never_raises (a : App) (s : Sys W) :
  exists (ok : bool) (a' : App),
    connect_to_aria2 (a, s) = (Ok ok, (a', s)) /\
    length (status_text a') = S (length (status_text a)) /\
    controller a' = controller a /\
    (if ok
     then exists cl,
         aria2p_API "http://localhost" (port (controller a))
                    (rpc_secret (controller a)) (world s) = Ok cl /\
         aria2_client a' = Some cl
     else aria2_client a' = aria2_client a).
Proof.
  rewrite connect_to_aria2_run.
  destruct (aria2p_API "http://localhost" (port (controller a))
                       (rpc_secret (controller a)) (world s)) as [cl|e] eqn:E.
  - eexists true, _. split; [reflexivity|]. cbn.
    rewrite length_app, Nat.add_comm. repeat split. now exists cl.
  - eexists false, _. split; [reflexivity|]. cbn.
    rewrite length_app, Nat.add_comm. repeat split.
Qed.

(** X10.  A start request on a daemon that already runs connects with
    what the entries hold: the client is the one constructed for
    [http://localhost], the port parsed from the port entry and the secret
    of the secret entry; the start button is disabled, the stop button
    enabled, nothing is spawned, and the polling thread is started unless
    one is alive. *)
Theorem start_aria2_service_connects (a : App) (s : Sys W) (p : Z) (cl : Client) :
  aria2_path_var a <> EmptyString ->
  PyStr.to_int (rpc_port_var a) = Some p ->
  is_aria2_running (set_port p (controller a)) (world s) = Ok true ->
  aria2p_API "http://localhost" p (rpc_secret_var a) (world s) = Ok cl ->
  let st := start_aria2_service (a, s) in
  let a' := fst (snd st) in
  fst st = Ok tt /\
  aria2_client a' = Some cl /\
  port (controller a') = p /\
  rpc_secret (controller a') = rpc_secret_var a /\
  start_button_normal a' = false /\ stop_button_normal a' = true /\
  status_thread a' = true /\
  world (snd (snd st)) = world s /\
  events (snd (snd st)) =
    events s ++ (if (negb (status_thread a) || negb (Thread_is_alive (world s)))%bool
                 then [EvThreadStart] else []).
Proof.
  intros Hpath Hport Hup Hcl. destruct s as [w ev]. cbn [world events] in *.
  cbv zeta. unfold start_aria2_service. run. rewrite Hport.
  rewrite start_aria2_run_already_running.
  2:{ cbn. destruct (aria2_path_var a); [contradiction | reflexivity]. }
  2:{ cbn [world]. rewrite <- Hup. now apply is_aria2_running_port_only. }
  rewrite log_status_run. run. rewrite connect_to_aria2_run.
  fields. cbn [world]. rewrite Hcl. run. fields.
  destruct (negb (status_thread a) || negb (Thread_is_alive w))%bool eqn:Ht.
  - fields. repeat split.
  - fields. rewrite app_nil_r. repeat split.
    apply orb_false_iff in Ht as [Ht _]. now apply negb_false_iff in Ht.
Qed.

(** X11.  Without a client [start_download] shows the error box and does
    nothing else, whatever the entries hold: no directory is created, no
    text is parsed, no link is submitted. *)
Theorem start_download_no_client (a : App) (s : Sys W) :
  aria2_client a = None ->
  start_download (a, s) =
    (Ok tt,
     (a, MkSys (world s)
               (events s ++ [EvShowError "错误" "Aria2服务未启动或连接失败"]))).
Proof.
  intros Hcl. unfold start_download. run. rewrite Hcl. run.
  destruct s; reflexivity.
Qed.

(** *** The loop of [start_download], link by link *)

Lemma submit_one_state (cl : Client) (options : Options) (url : string)
      (a : App) (s : Sys W) :
  let a' := fst (snd (submit_one cl options url (a, s))) in
  length (status_text a') =
    (length (status_text a) + (if not_blank url then 1 else 0))%nat /\
  (exists rows, download_tree a' = download_tree a ++ rows /\
                (length rows <= (if not_blank url then 1 else 0))%nat) /\
  active_tree a' = active_tree a /\
  aria2_client a' = aria2_client a /\
  controller a' = controller a.
Proof.
  destruct s as [w ev]. cbv zeta.
  unfold submit_one, not_blank, add_to_download_list.
  destruct (PyStr.truthy (PyStr.strip url)).
  - run. destruct (client_add cl (route url) url options w) as [[d|e] w'].
    + rewrite log_status_run. fields. rewrite length_app. cbn [length].
      repeat split. exists [row_of d]. auto.
    + unfold any_exception. rewrite log_status_run. fields.
      rewrite length_app. cbn [length]. repeat split.
      exists []. rewrite app_nil_r. auto.
  - run. rewrite Nat.add_0_r. repeat split. exists []. rewrite app_nil_r. auto.
Qed.

Lemma submit_all_state (cl : Client) (options : Options) (urls : list string)
      (a : App) (s : Sys W) :
  let a' := fst (snd (submit_all cl options urls (a, s))) in
  length (status_text a') =
    (length (status_text a) + length (filter not_blank urls))%nat /\
  (exists rows, download_tree a' = download_tree a ++ rows /\
                (length rows <= length (filter not_blank urls))%nat) /\
  active_tree a' = active_tree a /\
  aria2_client a' = aria2_client a /\
  controller a' = controller a.
Proof.
  cbv zeta. revert a s. induction urls as [|url rest IH]; intros a s.
  - simpl. run. rewrite Nat.add_0_r. repeat split. exists [].
    rewrite app_nil_r. auto.
  - cbn [submit_all]. unfold bind.
    destruct (submit_one_run cl options url a s) as (Hr & _ & _).
    pose proof (submit_one_state cl options url a s) as Hone. cbv zeta in Hone.
    destruct (submit_one cl options url (a, s)) as [r [a1 s1]].
    cbn [fst snd] in *. subst r.
    destruct Hone as (Hl & (rows1 & Hd & Hn) & Hat & Hc & Hk).
    destruct (IH a1 s1) as (Hl' & (rows2 & Hd' & Hn') & Hat' & Hc' & Hk').
    cbn [filter]. split; [|split; [|split; [|split]]].
    + rewrite Hl', Hl. destruct (not_blank url); cbn [length]; lia.
    + exists (rows1 ++ rows2). rewrite Hd', Hd, <- app_assoc. split; [reflexivity|].
      rewrite length_app. destruct (not_blank url); cbn [length] in *; lia.
    + congruence.
    + congruence.
    + congruence.
Qed.

(** X12.  In the loop of [start_download] a link that fails costs nothing
    but its own line.  With the download directory at hand, whether it was
    there or [os.makedirs] had to make it, the handler never raises, every
    non-blank line leaves exactly one line in the status box, added or
    failed, the task table only grows, by at most one row per non-blank
    line, and the status table, the client and the controller are not
    touched. *)
Theorem start_download_link_by_link
        (a : App) (s : Sys W) (cl : Client) (options : Options) :
  aria2_client a = Some cl ->
  let urls := PyStr.splitlines (PyStr.strip (url_text a)) in
  no_urls urls = false ->
  (os_path_exists (world s) (download_path_var a) = false ->
   fst (os_makedirs (download_path_var a) (world s)) = Ok tt) ->
  fst (build_options a (a, s)) = Ok options ->
  let st := start_download (a, s) in
  let a' := fst (snd st) in
  fst st = Ok tt /\
  length (status_text a') =
    (length (status_text a) + length (filter not_blank urls))%nat /\
  (exists rows, download_tree a' = download_tree a ++ rows /\
                (length rows <= length (filter not_blank urls))%nat) /\
  active_tree a' = active_tree a /\
  aria2_client a' = aria2_client a /\
  controller a' = controller a.
Proof.
  intros Hcl urls Hurls Hdir Hopt st a'.
  destruct (start_download_ready a s Hcl Hurls Hdir) as [Hst _].
  fold urls in Hst. rewrite Hopt in Hst. fold st in Hst.
  unfold a'. rewrite Hst. split.
  - exact (proj1 (submit_all_run cl options urls a _)).
  - exact (submit_all_state cl options urls a _).
Qed.

(** X13.  [start_download] creates a missing download directory before it
    looks at the rate limit: with the directory missing, the request to
    create it is made first; when it fails its exception leaves the
    handler, and when it succeeds a rate limit that is no integer still
    ends the handler with [ValueError], the directory created and no link
    submitted. *)
Theorem start_download_creates_directory_first
        (a : App) (s : Sys W) (cl : Client) :
  aria2_client a = Some cl ->
  no_urls (PyStr.splitlines (PyStr.strip (url_text a))) = false ->
  os_path_exists (world s) (download_path_var a) = false ->
  let made := os_makedirs (download_path_var a) (world s) in
  let s1 := MkSys (snd made) (events s ++ [EvMakedirs (download_path_var a)]) in
  match fst made with
  | Raise e => start_download (a, s) = (Raise e, (a, s1))
  | Ok _ =>
      PyStr.truthy (speed_limit_var a) = true ->
      PyStr.to_int (speed_limit_var a) = None ->
      start_download (a, s) = (Raise value_error, (a, s1))
  end.
Proof.
  intros Hcl Hurls Hpath. cbv zeta.
  rewrite (start_download_run a s Hcl Hurls). cbv zeta. rewrite Hpath.
  destruct (os_makedirs (download_path_var a) (world s)) as [[[]|e] w'];
    cbn [fst snd]; [|reflexivity].
  intros Ht Hi. rewrite build_options_run, Ht, Hi. reflexivity.
Qed.

(** X14.  [stop_aria2_service] follows the answer of [stop_aria2]: the
    message always goes to the status box; on success, which "not
    running" is too, the client is dropped, the start button enabled and
    the stop button disabled; on failure the client and both buttons stay
    as they were. *)
Theorem stop_aria2_service_follows (a : App) (s : Sys W) (ok : bool) (m : string) :
  fst (stop_aria2 (controller a, s)) = Ok (ok, m) ->
  let st := stop_aria2_service (a, s) in
  let a' := fst (snd st) in
  fst st = Ok tt /\
  snd (snd st) = snd (snd (stop_aria2 (controller a, s))) /\
  controller a' = fst (snd (stop_aria2 (controller a, s))) /\
  status_text a' = status_text a ++ [status_line (world (snd (snd st))) m] /\
  (if ok
   then aria2_client a' = None /\
        start_button_normal a' = true /\ stop_button_normal a' = false
   else aria2_client a' = aria2_client a /\
        start_button_normal a' = start_button_normal a /\
        stop_button_normal a' = stop_button_normal a).
Proof.
  intros Hr. cbv zeta. unfold stop_aria2_service. run.
  destruct (stop_aria2 (controller a, s)) as [r [c1 s1]]. cbn [fst snd] in *.
  subst r. rewrite log_status_run. fields. cbn [fst snd].
  destruct ok; run; fields; repeat split.
Qed.

End ApplicationMore.

Section WindowMore.

Context {W : Type} `{OS W} `{Desk W} `{Interpreter}.

Ltac run :=
  cbv beta iota zeta
      delta [app set_app sys_of_app in_controller in_app window set_window
             act_quiet emit py_int zoom observe observe_raising act modify
             bind ret raise try_except get put fst snd world events] in *.

Ltac fields :=
  cbn [controller aria2_client url_text download_path_var threads_var
       speed_limit_var aria2_path_var rpc_secret_var rpc_port_var status_text
       download_tree active_tree start_button_normal stop_button_normal
       status_thread set_controller set_aria2_client set_status_text
       set_download_tree set_active_tree set_buttons set_status_thread
       win_app default_path_var running destroyed set_win_app set_running
       set_destroyed] in *.

Lemma only_logs_refl (a : App) : only_logs 0 a a.
Proof.
  repeat split. exists []. rewrite app_nil_r. auto.
Qed.

Lemma only_logs_trans (n m : nat) (a b c : App) :
  only_logs n a b -> only_logs m b c -> only_logs (n + m) a c.
Proof.
  intros ((l1 & E1 & L1) & D1 & A1 & C1 & K1) ((l2 & E2 & L2) & D2 & A2 & C2 & K2).
  repeat split; try congruence.
  exists (l1 ++ l2). rewrite E2, E1, <- app_assoc. split; [reflexivity|].
  rewrite length_app. lia.
Qed.

Lemma control_one_run (cl : Client) (item : Row)
      (op : Download -> W -> outcome unit * W) (label : string)
      (a : App) (s : Sys W) :
  try_except
    (download <- act_quiet (client_get_download cl (row_gid item)) ;;
     act_quiet (op download) ;;
     log_status (label ++ name download)%string)
    any_exception (fun _ => ret tt) (a, s)
  = (Ok tt, control_one cl item op label a s).
Proof.
  destruct s as [w ev]. unfold control_one. run.
  destruct (client_get_download cl (row_gid item) w) as [[d|e] w1].
  - destruct (op d w1) as [[[]|e] w2].
    + rewrite log_status_run. reflexivity.
    + reflexivity.
  - reflexivity.
Qed.

Lemma control_one_state (cl : Client) (item : Row)
      (op : Download -> W -> outcome unit * W) (label : string)
      (a : App) (s : Sys W) :
  events (snd (control_one cl item op label a s)) = events s /\
  only_logs 1 a (fst (control_one cl item op label a s)).
Proof.
  assert (Hsame : only_logs 1 a a).
  { destruct (only_logs_refl a) as ((l & Hl & Hn) & R). split; [|exact R].
    exists l. split; [exact Hl | lia]. }
  unfold control_one.
  destruct (client_get_download cl (row_gid item) (world s)) as [[d|e] w1].
  - destruct (op d w1) as [[[]|e] w2]; cbn [fst snd events].
    + split; [reflexivity|]. split; [|fields; auto].
      exists [status_line w2 (label ++ name d)%string]. fields. auto.
    + split; [reflexivity | exact Hsame].
  - cbn [fst snd events]. split; [reflexivity | exact Hsame].
Qed.

Lemma pause_each_state (cl : Client) (selected : list Row) (a : App) (s : Sys W) :
  let st := pause_each cl selected (a, s) in
  fst st = Ok tt /\ events (snd (snd st)) = events s /\
  only_logs (length selected) a (fst (snd st)).
Proof.
  cbv zeta. revert a s. induction selected as [|item rest IH]; intros a s.
  - simpl. run. repeat split; try apply only_logs_refl.
  - cbn [pause_each]. unfold bind, pause_one.
    rewrite (control_one_run cl item Download_pause "已暂停任务: " a s).
    destruct (control_one_state cl item Download_pause "已暂停任务: " a s)
      as [Hev Hlog].
    destruct (control_one cl item Download_pause "已暂停任务: " a s) as [a1 s1].
    cbn [fst snd] in *.
    destruct (IH a1 s1) as (Hr & Hev' & Hlog').
    split; [exact Hr|]. split; [congruence|].
    exact (only_logs_trans Hlog Hlog').
Qed.

Lemma resume_each_state (cl : Client) (selected : list Row) (a : App) (s : Sys W) :
  let st := resume_each cl selected (a, s) in
  fst st = Ok tt /\ events (snd (snd st)) = events s /\
  only_logs (length selected) a (fst (snd st)).
Proof.
  cbv zeta. revert a s. induction selected as [|item rest IH]; intros a s.
  - simpl. run. repeat split; try apply only_logs_refl.
  - cbn [resume_each]. unfold bind, resume_one.
    rewrite (control_one_run cl item Download_resume "已恢复任务: " a s).
    destruct (control_one_state cl item Download_resume "已恢复任务: " a s)
      as [Hev Hlog].
    destruct (control_one cl item Download_resume "已恢复任务: " a s) as [a1 s1].
    cbn [fst snd] in *.
    destruct (IH a1 s1) as (Hr & Hev' & Hlog').
    split; [exact Hr|]. split; [congruence|].
    exact (only_logs_trans Hlog Hlog').
Qed.

(** X15.  [pause_download] and [resume_download], item by item.  Without a
    client or with nothing selected the window is left exactly as it was.
    With a client, the first selected task is looked up by the gid of its
    row: when the lookup fails nothing changes; when the lookup succeeds
    and the pause (or resume) fails nothing changes either; when both
    succeed exactly one line, naming the task, is added to the status box;
    the rest of the selection is then handled on the state so reached,
    whatever happened to the first.  Hence neither handler ever raises,
    neither table nor the client nor the controller changes, and the
    status box grows by at most one line per selected task. *)
Theorem pause_resume_never_raise (selected : list Row) (a : App) (s : Sys W) :
  (let st := pause_download selected (a, s) in
   fst st = Ok tt /\ events (snd (snd st)) = events s /\
   only_logs (length selected) a (fst (snd st)) /\
   (aria2_client a = None \/ selected = [] -> snd st = (a, s))) /\
  (let st := resume_download selected (a, s) in
   fst st = Ok tt /\ events (snd (snd st)) = events s /\
   only_logs (length selected) a (fst (snd st)) /\
   (aria2_client a = None \/ selected = [] -> snd st = (a, s))) /\
  (forall (cl : Client) (item : Row),
      aria2_client a = Some cl ->
      let step (op : Download -> W -> outcome unit * W) (label : string)
          : App * Sys W :=
        match client_get_download cl (row_gid item) (world s) with
        | (Ok d, w1) =>
            match op d w1 with
            | (Ok _, w2) =>
                (set_status_text
                   (status_text a ++ [status_line w2 (label ++ name d)%string]) a,
                 MkSys w2 (events s))
            | (Raise _, w2) => (a, MkSys w2 (events s))
            end
        | (Raise _, w1) => (a, MkSys w1 (events s))
        end in
      pause_download (item :: selected) (a, s) =
        pause_download selected (step Download_pause "已暂停任务: ") /\
      resume_download (item :: selected) (a, s) =
        resume_download selected (step Download_resume "已恢复任务: ")).
Proof.
  split; [|split].
  - cbv zeta. unfold pause_download. run.
    destruct (aria2_client a) as [cl|] eqn:Hcl.
    + destruct (pause_each_state cl selected a s) as (Hr & Hev & Hlog).
      split; [exact Hr|]. split; [exact Hev|]. split; [exact Hlog|].
      intros [Hn | ->]; [discriminate | reflexivity].
    + assert (Hl : only_logs (length selected) a a).
      { destruct (only_logs_refl a) as ((l & Hl & Hn) & R). split; [|exact R].
        exists l. split; [exact Hl | lia]. }
      split; [reflexivity|]; split; [reflexivity|]; split; [exact Hl|]; reflexivity.
  - cbv zeta. unfold resume_download. run.
    destruct (aria2_client a) as [cl|] eqn:Hcl.
    + destruct (resume_each_state cl selected a s) as (Hr & Hev & Hlog).
      split; [exact Hr|]. split; [exact Hev|]. split; [exact Hlog|].
      intros [Hn | ->]; [discriminate | reflexivity].
    + assert (Hl : only_logs (length selected) a a).
      { destruct (only_logs_refl a) as ((l & Hl & Hn) & R). split; [|exact R].
        exists l. split; [exact Hl | lia]. }
      split; [reflexivity|]; split; [reflexivity|]; split; [exact Hl|]; reflexivity.
  - intros cl item Hcl step.
    assert (Hkeep : forall op label,
               aria2_client (fst (control_one cl item op label a s)) = Some cl).
    { intros op label.
      destruct (control_one_state cl item op label a s) as [_ (_ & _ & _ & Hc & _)].
      congruence. }
    split.
    + change (step Download_pause "已暂停任务: ")
        with (control_one cl item Download_pause "已暂停任务: " a s).
      pose proof (Hkeep Download_pause "已暂停任务: ") as Hc.
      unfold pause_download at 1. run. rewrite Hcl. cbn [pause_each].
      unfold bind, pause_one.
      rewrite (control_one_run cl item Download_pause "已暂停任务: " a s).
      destruct (control_one cl item Download_pause "已暂停任务: " a s) as [a1 s1].
      cbn [fst] in Hc. unfold pause_download. run. rewrite Hc. reflexivity.
    + change (step Download_resume "已恢复任务: ")
        with (control_one cl item Download_resume "已恢复任务: " a s).
      pose proof (Hkeep Download_resume "已恢复任务: ") as Hc.
      unfold resume_download at 1. run. rewrite Hcl. cbn [resume_each].
      unfold bind, resume_one.
      rewrite (control_one_run cl item Download_resume "已恢复任务: " a s).
      destruct (control_one cl item Download_resume "已恢复任务: " a s) as [a1 s1].
      cbn [fst] in Hc. unfold resume_download. run. rewrite Hc. reflexivity.
Qed.

(** *** on_closing *)

(** X16.  [on_closing] clears the polling flag first and destroys the
    window last.  It raises exactly when the probe raises, and then the
    window is not destroyed; when the probe answers, the window is
    destroyed whether the daemon was running or not and whatever
    [stop_aria2] answered, and [stop_aria2] is called only when the probe
    said running. *)
Theorem on_closing_outcome (x : Window) (s : Sys W) :
  let st := on_closing (x, s) in
  let x' := fst (snd st) in
  running x' = false /\
  match is_aria2_running (controller (win_app x)) (world s) with
  | Raise e => fst st = Raise e /\ destroyed x' = destroyed x /\ snd (snd st) = s
  | Ok false => fst st = Ok tt /\ destroyed x' = true /\ snd (snd st) = s
  | Ok true =>
      fst st = Ok tt /\ destroyed x' = true /\
      snd (snd st) = snd (snd (stop_aria2 (controller (win_app x), s))) /\
      controller (win_app x') = fst (snd (stop_aria2 (controller (win_app x), s)))
  end.
Proof.
  cbv zeta. destruct s as [w ev]. unfold on_closing. run. fields.
  destruct (is_aria2_running (controller (win_app x)) w) as [[|]|e] eqn:Hp.
  - destruct (stop_aria2 _) as [[r|e] [c1 s1]] eqn:E.
    + fields. repeat split.
    + exfalso. rewrite stop_aria2_structure in E. cbn [world] in E. fields.
      rewrite Hp in E. revert E.
      destruct (stop_owned _ _) as [[[]|e1] s2]; [|discriminate].
      destruct (sweep s2) as [[[]|e2] s3]; [|discriminate]. cbv zeta. cbn [world].
      destruct (is_aria2_running _ (time_sleep 1 (world s3))) as [[|]|e3];
        discriminate.
  - fields. repeat split.
  - fields. repeat split.
Qed.

(** *** The settings *)

(** X17.  What [save_settings] writes, [load_settings] reads back: the
    dictionary of a window restores its path, secret, port, thread and
    rate-limit entries and its default path, and puts the default path in
    the download-path entry too, which is not saved; a key the dictionary
    lacks takes its default ([my_secret], [6800], [8], [0], the empty path,
    the home download directory). *)
Theorem settings_round_trip (x y : Window) (home : string) :
  let z := apply_settings (settings_of x) home y in
  (aria2_path_var (win_app z) = aria2_path_var (win_app x) /\
   rpc_secret_var (win_app z) = rpc_secret_var (win_app x) /\
   rpc_port_var (win_app z) = rpc_port_var (win_app x) /\
   threads_var (win_app z) = threads_var (win_app x) /\
   speed_limit_var (win_app z) = speed_limit_var (win_app x) /\
   default_path_var z = default_path_var x /\
   download_path_var (win_app z) = default_path_var x) /\
  (let d := apply_settings [] home y in
   aria2_path_var (win_app d) = EmptyString /\
   rpc_secret_var (win_app d) = "my_secret" /\
   rpc_port_var (win_app d) = "6800" /\
   threads_var (win_app d) = "8" /\
   speed_limit_var (win_app d) = "0" /\
   default_path_var d = home /\
   download_path_var (win_app d) = home).
Proof.
  cbv zeta. split; repeat split.
Qed.

(** X18.  [save_settings] never raises: a file that cannot be written costs
    one line in the status box, a written one leaves one line too; the
    entries, the tables, the client and the controller are as before. *)
Theorem save_settings_never_raises (x : Window) (s : Sys W) :
  let st := save_settings (x, s) in
  let x' := fst (snd st) in
  fst st = Ok tt /\
  events (snd (snd st)) = events s /\
  world (snd (snd st)) = snd (json_dump_file settings_file (settings_of x) (world s)) /\
  length (status_text (win_app x')) = S (length (status_text (win_app x))) /\
  settings_of x' = settings_of x /\
  download_tree (win_app x') = download_tree (win_app x) /\
  active_tree (win_app x') = active_tree (win_app x) /\
  aria2_client (win_app x') = aria2_client (win_app x) /\
  controller (win_app x') = controller (win_app x).
Proof.
  cbv zeta. destruct s as [w ev]. unfold save_settings. run. fields.
  destruct (json_dump_file settings_file (settings_of x) w) as [[[]|e] w1].
  - rewrite log_status_run. fields. cbn [fst snd world events].
    rewrite length_app, Nat.add_comm. repeat split.
  - unfold any_exception. rewrite log_status_run. fields. cbn [fst snd world events].
    rewrite length_app, Nat.add_comm. repeat split.
Qed.

(** *** The constructor *)

Lemma init_start_attempt (c : Aria2Controller) (w : W) :
  start_aria2_service_unthreaded (win_app (blank_window c w), MkSys w []) =
    (Ok false,
     (set_status_text [status_line w msg_not_found]
        (set_controller
           (set_port 6800
              (set_rpc_secret "my_secret"
                 (set_aria2_executable (Some EmptyString) c)))
           (win_app (blank_window c w))),
      MkSys w [])).
Proof.
  unfold start_aria2_service_unthreaded, blank_window. run. fields.
  change (PyStr.to_int "6800") with (Some 6800).
  cbv iota beta.
  rewrite start_aria2_run_no_executable by reflexivity.
  rewrite log_status_run. reflexivity.
Qed.

(** X19.  The constructor of the window never starts, probes or contacts
    the daemon, and it ends in one of three ways.  With the search path
    unset it fails with [KeyError].  With a settings file present it fails
    with [AttributeError]: [load_settings] writes to the status box, which
    is created later.  Otherwise it succeeds, and the start attempt it
    made answered "executable not found", because the empty path entry had
    replaced the executable the locator found. *)
Theorem init_outcome (w : W) :
  snd (Aria2DownloaderApp_init w) = MkSys w [] /\
  match environ_PATH w with
  | None => fst (Aria2DownloaderApp_init w) = Failed (Exn KeyError "'PATH'")
  | Some _ =>
      if os_path_exists w settings_file
      then fst (Aria2DownloaderApp_init w) = FailedAttribute "status_text"
      else exists x,
          fst (Aria2DownloaderApp_init w) = Built x /\
          aria2_executable (controller (win_app x)) = Some EmptyString /\
          aria2_client (win_app x) = None /\
          status_text (win_app x) = [status_line w msg_not_found] /\
          status_thread (win_app x) = false /\
          running x = true /\ destroyed x = false
  end.
Proof.
  unfold Aria2DownloaderApp_init, Aria2Controller_init, _find_aria2_executable.
  destruct (environ_PATH w) as [v|] eqn:Hv.
  - rewrite (possible_paths_order w Hv).
    set (c := MkController _ _ _ _ _ _).
    unfold load_settings, log_status_too_early.
    destruct (os_path_exists w settings_file) eqn:Hf.
    + destruct (json_load_file settings_file w); auto.
    + rewrite (init_start_attempt c w). split; [reflexivity|].
      eexists. split; [reflexivity|]. repeat split.
  - unfold possible_paths. rewrite Hv.
    destruct (String.eqb (platform_system w) "Windows"); auto.
Qed.

End WindowMore.

(** * The further properties on the simulated machine *)

Lemma find_aria2_executable_path_unset_witness :
  os_path_exists SimDesk.linux_no_path "/usr/bin/aria2c" = true /\
  _find_aria2_executable SimDesk.linux_no_path = Raise (Exn KeyError "'PATH'") /\
  Aria2Controller_init "my_secret" 6800 None SimDesk.linux_no_path
    = Raise (Exn KeyError "'PATH'").
Proof.
  split; [reflexivity|].
  exact (@find_aria2_executable_path_unset Sim.World Sim.os
           SimDesk.linux_no_path "my_secret" 6800 None eq_refl).
Defined.

Lemma start_aria2_success_detected_witness :
  let c := Sim.controller_at (Some "/usr/bin/aria2c") in
  let st := snd (start_aria2 (c, Sim.boot Sim.linux)) in
  start_aria2 (c, Sim.boot Sim.linux) = (Ok (true, msg_started), st) /\
  is_aria2_running (fst st) (world (snd st)) = Ok true.
Proof.
  cbv zeta. split; [reflexivity|].
  exact (proj1 (@start_aria2_success_detected Sim.World Sim.os
                  (Sim.controller_at (Some "/usr/bin/aria2c"))
                  (fst (snd (start_aria2 (Sim.controller_at (Some "/usr/bin/aria2c"),
                                          Sim.boot Sim.linux))))
                  (Sim.boot Sim.linux)
                  (snd (snd (start_aria2 (Sim.controller_at (Some "/usr/bin/aria2c"),
                                          Sim.boot Sim.linux))))
                  msg_started eq_refl)).
Defined.

Lemma stop_aria2_success_not_detected_witness :
  let st := snd (stop_aria2 (Sim.controller_owning, Sim.boot Sim.linux_owned)) in
  stop_aria2 (Sim.controller_owning, Sim.boot Sim.linux_owned)
    = (Ok (true, msg_stopped), st) /\
  is_aria2_running (fst st) (world (snd st)) = Ok false.
Proof.
  cbv zeta. split; [reflexivity|].
  exact (proj1 (@stop_aria2_success_not_detected Sim.World Sim.os
                  Sim.controller_owning
                  (fst (snd (stop_aria2 (Sim.controller_owning,
                                         Sim.boot Sim.linux_owned))))
                  (Sim.boot Sim.linux_owned)
                  (snd (snd (stop_aria2 (Sim.controller_owning,
                                         Sim.boot Sim.linux_owned))))
                  msg_stopped eq_refl)).
Defined.

Lemma start_aria2_service_empty_path_witness :
  _find_aria2_executable Sim.linux_listening = Ok (Some "/usr/bin/aria2c") /\
  aria2_path_var SimDesk.first_app = EmptyString /\
  fst (start_aria2_service (SimDesk.first_app, Sim.boot Sim.linux_listening)) = Ok tt /\
  snd (snd (start_aria2_service (SimDesk.first_app, Sim.boot Sim.linux_listening)))
    = Sim.boot Sim.linux_listening /\
  status_text (fst (snd (start_aria2_service
                           (SimDesk.first_app, Sim.boot Sim.linux_listening))))
    = [status_line Sim.linux_listening msg_not_found].
Proof.
  split; [reflexivity|]. split; [reflexivity|].
  rewrite (@start_aria2_service_empty_path Sim.World Sim.os Sim.interpreter
             SimDesk.first_app (Sim.boot Sim.linux_listening) 6800 eq_refl eq_refl).
  repeat split.
Defined.

Lemma start_aria2_service_connects_witness :
  let st := start_aria2_service (Sim.fresh_app, Sim.boot Sim.linux_listening) in
  fst st = Ok tt /\
  aria2_client (fst (snd st)) = Some Sim.local_client /\
  events (snd (snd st)) = [EvThreadStart].
Proof.
  cbv zeta.
  destruct (@start_aria2_service_connects Sim.World Sim.os Sim.interpreter
              Sim.fresh_app (Sim.boot Sim.linux_listening) 6800 Sim.local_client
              ltac:(discriminate) eq_refl eq_refl eq_refl)
    as (Hr & Hc & _ & _ & _ & _ & _ & _ & Hev).
  split; [exact Hr|]. split; [exact Hc | exact Hev].
Defined.

Lemma start_download_no_client_witness :
  start_download (Sim.with_speed_limit_text "fast" Sim.fresh_app, Sim.boot Sim.linux) =
    (Ok tt,
     (Sim.with_speed_limit_text "fast" Sim.fresh_app,
      MkSys Sim.linux [EvShowError "错误" "Aria2服务未启动或连接失败"])).
Proof.
  exact (@start_download_no_client Sim.World Sim.os Sim.interpreter
           (Sim.with_speed_limit_text "fast" Sim.fresh_app) (Sim.boot Sim.linux)
           eq_refl).
Defined.

Lemma start_download_link_by_link_witness :
  (let st := start_download (Sim.busy_app, Sim.boot Sim.linux_rpc_down) in
   fst st = Ok tt /\
   length (status_text (fst (snd st))) = 2%nat /\
   download_tree (fst (snd st)) = []) /\
  (let st := start_download (Sim.busy_app, Sim.boot Sim.linux) in
   os_path_exists Sim.linux "/tmp/dl" = false /\
   fst st = Ok tt /\
   length (status_text (fst (snd st))) = 2%nat /\
   length (download_tree (fst (snd st))) = 2%nat).
Proof.
  cbv zeta. split.
  - destruct (@start_download_link_by_link Sim.World Sim.os Sim.interpreter
                Sim.busy_app (Sim.boot Sim.linux_rpc_down) Sim.local_client
                [("dir", "/tmp/dl"); ("split", "8"); ("max-connection-per-server", "8")]
                eq_refl eq_refl (fun _ => eq_refl) eq_refl)
      as (Hr & Hl & _).
    split; [exact Hr|]. split; [exact Hl | reflexivity].
  - destruct (@start_download_link_by_link Sim.World Sim.os Sim.interpreter
                Sim.busy_app (Sim.boot Sim.linux) Sim.local_client
                [("dir", "/tmp/dl"); ("split", "8"); ("max-connection-per-server", "8")]
                eq_refl eq_refl (fun _ => eq_refl) eq_refl)
      as (Hr & Hl & _).
    split; [reflexivity|]. split; [exact Hr|]. split; [exact Hl | reflexivity].
Defined.

Lemma start_download_creates_directory_first_witness :
  os_path_exists Sim.linux "/tmp/dl" = false /\
  start_download (Sim.with_speed_limit_text "fast" Sim.busy_app, Sim.boot Sim.linux) =
    (Raise value_error,
     (Sim.with_speed_limit_text "fast" Sim.busy_app,
      MkSys (Sim.with_files ["/usr/bin/aria2c"; "/home/user/Downloads"; "/tmp/dl"]
                            Sim.linux)
            [EvMakedirs "/tmp/dl"])).
Proof.
  split; [reflexivity|].
  exact (@start_download_creates_directory_first Sim.World Sim.os Sim.interpreter
           (Sim.with_speed_limit_text "fast" Sim.busy_app) (Sim.boot Sim.linux)
           Sim.local_client eq_refl eq_refl eq_refl eq_refl eq_refl).
Defined.

Lemma stop_aria2_service_follows_witness :
  let st := stop_aria2_service (Sim.busy_app, Sim.boot Sim.linux) in
  fst st = Ok tt /\
  aria2_client (fst (snd st)) = None /\
  start_button_normal (fst (snd st)) = true /\
  stop_button_normal (fst (snd st)) = false /\
  status_text (fst (snd st)) = [status_line Sim.linux msg_not_running].
Proof.
  cbv zeta.
  destruct (@stop_aria2_service_follows Sim.World Sim.os
              Sim.busy_app (Sim.boot Sim.linux) true msg_not_running eq_refl)
    as (Hr & _ & _ & Hl & Hc & Hb1 & Hb2).
  split; [exact Hr|]. split; [exact Hc|]. split; [exact Hb1|]. split; [exact Hb2|].
  exact Hl.
Defined.

(** A task that answers is paused with one line in the status box; with
    the endpoint down the selected task is passed over and nothing
    changes. *)
Lemma pause_resume_never_raise_witness :
  let item := MkRow "2089b05ecca3d829" "y.iso" "active" "0.0%" "0.0 KB/s" "0.0 MB" in
  pause_download [item] (Sim.busy_app, Sim.boot Sim.linux_rpc_up) =
    (Ok tt,
     (set_status_text [status_line Sim.linux_rpc_up "已暂停任务: y.iso"] Sim.busy_app,
      Sim.boot Sim.linux_rpc_up)) /\
  resume_download [item] (Sim.busy_app, Sim.boot Sim.linux_rpc_up) =
    (Ok tt,
     (set_status_text [status_line Sim.linux_rpc_up "已恢复任务: y.iso"] Sim.busy_app,
      Sim.boot Sim.linux_rpc_up)) /\
  pause_download [item] (Sim.busy_app, Sim.boot Sim.linux_rpc_down) =
    (Ok tt, (Sim.busy_app, Sim.boot Sim.linux_rpc_down)).
Proof.
  intros item. split; [|split].
  - rewrite (proj1 (proj2 (proj2 (@pause_resume_never_raise Sim.World Sim.os
               SimDesk.desk [] Sim.busy_app (Sim.boot Sim.linux_rpc_up)))
               Sim.local_client item eq_refl)).
    reflexivity.
  - rewrite (proj2 (proj2 (proj2 (@pause_resume_never_raise Sim.World Sim.os
               SimDesk.desk [] Sim.busy_app (Sim.boot Sim.linux_rpc_up)))
               Sim.local_client item eq_refl)).
    reflexivity.
  - rewrite (proj1 (proj2 (proj2 (@pause_resume_never_raise Sim.World Sim.os
               SimDesk.desk [] Sim.busy_app (Sim.boot Sim.linux_rpc_down)))
               Sim.local_client item eq_refl)).
    reflexivity.
Defined.

(** The constructor on three machines: a fresh one, one with a settings
    file, one with the search path unset. *)
Example init_samples :
  (exists x, fst (Aria2DownloaderApp_init Sim.linux) = Built x /\
             aria2_executable (controller (win_app x)) = Some EmptyString) /\
  fst (Aria2DownloaderApp_init SimDesk.linux_saved) = FailedAttribute "status_text" /\
  fst (Aria2DownloaderApp_init SimDesk.linux_no_path) = Failed (Exn KeyError "'PATH'").
Proof.
  split; [eexists; split; reflexivity|]. split; reflexivity.
Qed.
